(** * HubChannel: the session and permission client of a room channel

    A shallow embedding of [src/utils/hub-channel.js].  The class keeps a
    permission cache decoded from a signed token, a sign-in flag, a set of
    hidden sessions and a reference to the room channel.  Its methods are
    embedded as computations over that object; every call into an external
    collaborator (channel push, event dispatch, timer, NAF adapter, console)
    is recorded in a trace, in program order. *)

From stdpp Require Import gmap strings list fin_maps.
From Stdlib Require Import ZArith Lia.

#[local] Set Warnings "-register-all".
#[local] Open Scope Z_scope.

(** ** JavaScript values *)

(** Numbers.  The numbers this module computes with are time values and
    their differences, which are integers; [NaN] is the only other number it
    can produce.  Integer arithmetic is exact, as the arithmetic of doubles is
    on integers of magnitude up to 2^53. *)
Definition jsnum : Type := option Z.
Definition NaN : jsnum := None.

(** Values: the primitives and plain objects, as a decoded token, the store
    and the payload of an acknowledgment hold them. *)
Inductive jsval : Type :=
| VUndefined
| VNull
| VBool (b : bool)
| VNum (n : jsnum)
| VStr (s : string)
| VObj (o : gmap string jsval).

Definition num_mul (a b : jsnum) : jsnum :=
  match a, b with Some x, Some y => Some (x * y) | _, _ => NaN end.

Definition num_sub (a b : jsnum) : jsnum :=
  match a, b with Some x, Some y => Some (x - y) | _, _ => NaN end.

(** [a == b] on numbers: [NaN] equals nothing, itself included. *)
Definition num_eqb (a b : jsnum) : bool :=
  match a, b with Some x, Some y => x =? y | _, _ => false end.

(** [a > b] on numbers: false as soon as one side is [NaN]. *)
Definition num_gtb (a b : jsnum) : bool :=
  match a, b with Some x, Some y => x >? y | _, _ => false end.

(** Truthiness, as [!v] and [if (v)] use it. *)
Definition ToBoolean (v : jsval) : bool :=
  match v with
  | VUndefined | VNull => false
  | VBool b => b
  | VNum None => false
  | VNum (Some z) => negb (z =? 0)
  | VStr s => negb (String.eqb s "")
  | VObj _ => true
  end.

(** [v === "s"] against a string literal. *)
Definition strict_eq_str (v : jsval) (s : string) : bool :=
  match v with VStr s' => String.eqb s' s | _ => false end.

Inductive exn : Type :=
| TypeError
| InvalidTokenError.

(** Property read [v.k], for the property names this module reads
    ([update_hub], [close_hub], [exp], [perms_token], [reason], [host]):
    a [TypeError] on [undefined] and [null], the stored value on an object,
    [undefined] where the object has no such property and on the other
    primitives. *)
Definition get_prop (v : jsval) (k : string) : option jsval :=
  match v with
  | VUndefined | VNull => None
  | VObj o => Some (default VUndefined (o !! k))
  | VBool _ | VNum _ | VStr _ => Some VUndefined
  end.

(** ** The runtime and the imported modules

    What the module consumes through public interfaces only: the token
    decoder of [jwt-decode] (it throws on a token it cannot decode), the
    conversion of strings to numbers, the parsing of date strings and the
    calendar fields of a time value in the client's local time zone. *)
Class Runtime : Type := {
  jwtDecode : jsval -> option jsval;
  StringToNumber : string -> jsnum;
  Date_parse : string -> jsnum;
  localFullYear : Z -> Z;
  localMonth : Z -> Z;
  localDate : Z -> Z
}.

(** ** Dates *)

(** A [Date] object is its time value: milliseconds since the epoch, or
    [NaN] for an invalid date. *)
Definition Date : Type := jsnum.

Definition MAX_TIME_VALUE : Z := 8640000000000000.

(** A time value out of the range of dates is clipped to [NaN]. *)
Definition TimeClip (n : jsnum) : jsnum :=
  match n with
  | Some t => if Z.abs t <=? MAX_TIME_VALUE then Some t else NaN
  | None => NaN
  end.

Section Values.
Context `{R : Runtime}.

Definition ToNumber (v : jsval) : jsnum :=
  match v with
  | VUndefined => NaN
  | VNull => Some 0
  | VBool b => Some (if b then 1 else 0)
  | VNum n => n
  | VStr s => StringToNumber s
  | VObj _ => NaN
  end.

(** [new Date(v)]: a string is parsed, a plain object is parsed through its
    string form, anything else is converted to a number and clipped. *)
Definition Date_new (v : jsval) : Date :=
  match v with
  | VStr s => Date_parse s
  | VObj _ => Date_parse "[object Object]"
  | _ => TimeClip (ToNumber v)
  end.

Definition getFullYear (d : Date) : jsnum := localFullYear <$> d.
Definition getMonth (d : Date) : jsnum := localMonth <$> d.
Definition getDate (d : Date) : jsnum := localDate <$> d.

Definition isSameMonth (da db : Date) : bool :=
  num_eqb (getFullYear da) (getFullYear db) && num_eqb (getMonth da) (getMonth db).

Definition isSameDay (da db : Date) : bool :=
  isSameMonth da db && num_eqb (getDate da) (getDate db).
End Values.

Definition MS_PER_DAY : Z := 1000 * 60 * 60 * 24.
Definition MS_PER_MONTH : Z := 1000 * 60 * 60 * 24 * 30.

(** ** The object *)

Record CreatorAssignmentTokenEntry : Type := {
  entry_hubId : string;
  creatorAssignmentToken : jsval
}.

(** The part of [store.state] the class reads. *)
Record Store : Type := {
  credentials_token : jsval;
  activity_lastEnteredAt : jsval;
  creatorAssignmentTokens : option (list CreatorAssignmentTokenEntry)
}.

Record HubChannel : Type := {
  store : Store;
  hubId : string;
  _signedIn : bool;
  _permissions : jsval;
  _blockedSessionIds : gset string;
  (** [this.channel]: the topic of the attached channel, [None] until
      [setPhoenixChannel] has run.  The presence tracker built on the channel
      is left out. *)
  channel : option string
}.

Definition set_signedIn (b : bool) (this : HubChannel) : HubChannel :=
  {| store := store this; hubId := hubId this; _signedIn := b;
     _permissions := _permissions this;
     _blockedSessionIds := _blockedSessionIds this; channel := channel this |}.

Definition set_permissions (p : jsval) (this : HubChannel) : HubChannel :=
  {| store := store this; hubId := hubId this; _signedIn := _signedIn this;
     _permissions := p;
     _blockedSessionIds := _blockedSessionIds this; channel := channel this |}.

Definition set_blockedSessionIds (s : gset string) (this : HubChannel) : HubChannel :=
  {| store := store this; hubId := hubId this; _signedIn := _signedIn this;
     _permissions := _permissions this;
     _blockedSessionIds := s; channel := channel this |}.

Definition set_channel (c : option string) (this : HubChannel) : HubChannel :=
  {| store := store this; hubId := hubId this; _signedIn := _signedIn this;
     _permissions := _permissions this;
     _blockedSessionIds := _blockedSessionIds this; channel := c |}.

(** [new HubChannel(store, hubId)] *)
Definition constructor (st : Store) (id : string) : HubChannel :=
  {| store := st; hubId := id;
     _signedIn := ToBoolean (credentials_token st);
     _permissions := VObj ∅;
     _blockedSessionIds := ∅;
     channel := None |}.

Definition signedIn (this : HubChannel) : bool := _signedIn this.

(** ** Calls and their effects *)

Inductive effect : Type :=
| Push (event : string) (payload : jsval)
| DispatchEvent (type : string)
(** [setTimeout(refresh, delay)], where [refresh] fetches the permissions
    again and dispatches [permissions-refreshed]. *)
| SetTimeout (delay : jsnum)
| AdapterBlock (sessionId : string)
| AdapterUnblock (sessionId : string)
| CompleteSync (sessionId : string)
| ConsoleWarn (msg : string)
| ConsoleError (msg : string).

Inductive completion (A : Type) : Type :=
| Normal (a : A)
| Throw (e : exn).
Arguments Normal {A} a.
Arguments Throw {A} e.

(** The outcome of a call: how it completed, the object afterwards and the
    external calls it made. *)
Definition outcome (A : Type) : Type := (completion A * HubChannel * list effect)%type.

(** A call reads the clock (what [new Date()] gives while it runs) and the
    object. *)
Definition M (A : Type) : Type := Z -> HubChannel -> outcome A.

Module Call.
Definition ret {A} (a : A) : M A := fun _ this => (Normal a, this, []).

Definition bind {A B} (m : M A) (k : A -> M B) : M B :=
  fun now this =>
    match m now this with
    | (Normal a, this1, t1) =>
        let '(r, this2, t2) := k a now this1 in (r, this2, t1 ++ t2)
    | (Throw e, this1, t1) => (Throw e, this1, t1)
    end.

Definition throw {A} (e : exn) : M A := fun _ this => (Throw e, this, []).
Definition self : M HubChannel := fun _ this => (Normal this, this, []).
Definition update (f : HubChannel -> HubChannel) : M unit :=
  fun _ this => (Normal tt, f this, []).
Definition emit (e : effect) : M unit := fun _ this => (Normal tt, this, [e]).
Definition clock : M Z := fun now this => (Normal now, this, []).

(** A value that may fail to be there, with the exception its absence raises. *)
Definition expect {A} (o : option A) (e : exn) : M A :=
  match o with Some a => ret a | None => throw e end.
End Call.

Declare Scope call_scope.
Delimit Scope call_scope with call.
Notation "x <- m ;; k" := (Call.bind m (fun x => k))
  (at level 100, m at next level, right associativity) : call_scope.
Notation "m ;; k" := (Call.bind m (fun _ => k))
  (at level 100, right associativity) : call_scope.

(** ** Promises over channel acknowledgments *)

Inductive rejection : Type :=
| Reason (v : jsval)
| Uncaught (e : exn).

Inductive settlement : Type :=
| Resolved (v : jsval)
| Rejected (r : rejection).

(** What [.receive(status, callback)] registers on a push, in registration
    order; a callback says how it settles the promise around it. *)
Definition receivers : Type := list (string * (jsval -> M settlement)).

Inductive promise : Type :=
| Pending (recv : receivers)
| Settled (s : settlement).

Definition receiver_for (status : string) (recv : receivers) : option (jsval -> M settlement) :=
  snd <$> List.find (fun r => String.eqb (fst r) status) recv.

Section Methods.
Context `{R : Runtime}.
#[local] Open Scope call_scope.

(** [new Promise(executor)]: the executor runs at once; what it throws
    rejects the promise. *)
Definition new_Promise (executor : M receivers) : M promise :=
  fun now this =>
    match executor now this with
    | (Normal recv, this1, t1) => (Normal (Pending recv), this1, t1)
    | (Throw e, this1, t1) => (Normal (Settled (Rejected (Uncaught e))), this1, t1)
    end.

(** The channel acknowledges the push behind [p] with [status] and
    [payload]: the callback registered for [status], if there is one, runs.
    When it throws, the call completes with [Throw] and the promise is left
    as it was. *)
Definition acknowledge (status : string) (payload : jsval) (p : promise) : M promise :=
  match p with
  | Settled s => Call.ret (Settled s)
  | Pending recv =>
      match receiver_for status recv with
      | None => Call.ret (Pending recv)
      | Some callback => s <- callback payload ;; Call.ret (Settled s)
      end
  end.

(** [this.channel.push(event, payload)] *)
Definition channel_push (event : string) (payload : jsval) : M unit :=
  this <- Call.self ;;
  match channel this with
  | None => Call.throw TypeError
  | Some _ => Call.emit (Push event payload)
  end.

(** [this._permissions.k] *)
Definition permission (k : string) : M jsval :=
  this <- Call.self ;;
  Call.expect (get_prop (_permissions this) k) TypeError.

Definition setPhoenixChannel (topic : string) : M jsval :=
  Call.update (set_channel (Some topic)) ;;
  Call.ret VUndefined.

(** [new Date(exp * 1000 - 60 * 1000) - new Date()] *)
Definition nextRefresh (exp : jsval) (now : Z) : jsnum :=
  num_sub
    (Date_new (VNum (num_sub (num_mul (ToNumber exp) (Some 1000)) (Some (60 * 1000)))))
    (Some now).

Definition setPermissionsFromToken (token : jsval) : M jsval :=
  perms <- Call.expect (jwtDecode token) InvalidTokenError ;;
  Call.update (set_permissions perms) ;;
  Call.emit (DispatchEvent "permissions_updated") ;;
  exp <- permission "exp" ;;
  now <- Call.clock ;;
  Call.emit (SetTimeout (nextRefresh exp now)) ;;
  Call.ret VUndefined.

Record EntryTimingFlags : Type := {
  isNewDaily : bool;
  isNewMonthly : bool;
  isNewDayWindow : bool;
  isNewMonthWindow : bool
}.

Definition getEntryTimingFlags (now : Z) (this : HubChannel) : EntryTimingFlags :=
  let entryTimingFlags :=
    {| isNewDaily := true; isNewMonthly := true;
       isNewDayWindow := true; isNewMonthWindow := true |} in
  let storedLastEnteredAt := activity_lastEnteredAt (store this) in
  if negb (ToBoolean storedLastEnteredAt) then entryTimingFlags
  else
    let now : Date := Some now in
    let lastEntered := Date_new storedLastEnteredAt in
    let msSinceLastEntered := num_sub now lastEntered in
    {| isNewDaily := negb (isSameDay now lastEntered);
       isNewMonthly := negb (isSameMonth now lastEntered);
       isNewDayWindow := num_gtb msSinceLastEntered (Some MS_PER_DAY);
       isNewMonthWindow := num_gtb msSinceLastEntered (Some MS_PER_MONTH) |}.

Definition updateScene (url : jsval) : M jsval :=
  update_hub <- permission "update_hub" ;;
  if negb (ToBoolean update_hub) then Call.ret (VStr "unauthorized")
  else channel_push "update_scene" (VObj {[ "url" := url ]}) ;; Call.ret VUndefined.

Definition rename (name : jsval) : M jsval :=
  update_hub <- permission "update_hub" ;;
  if negb (ToBoolean update_hub) then Call.ret (VStr "unauthorized")
  else channel_push "update_hub" (VObj {[ "name" := name ]}) ;; Call.ret VUndefined.

Definition closeHub : M jsval :=
  close_hub <- permission "close_hub" ;;
  if negb (ToBoolean close_hub) then Call.ret (VStr "unauthorized")
  else channel_push "close_hub" (VObj ∅) ;; Call.ret VUndefined.

Definition _getCreatorAssignmentToken (this : HubChannel) : jsval :=
  match creatorAssignmentTokens (store this) with
  | None => VUndefined
  | Some tokens =>
      match List.find (fun t => String.eqb (entry_hubId t) (hubId this)) tokens with
      | None => VUndefined
      | Some creatorAssignmentTokenEntry => creatorAssignmentToken creatorAssignmentTokenEntry
      end
  end.

Definition signIn_ok (payload : jsval) : M settlement :=
  perms_token <- Call.expect (get_prop payload "perms_token") TypeError ;;
  setPermissionsFromToken perms_token ;;
  Call.update (set_signedIn true) ;;
  Call.ret (Resolved VUndefined).

Definition signIn_error (err : jsval) : M settlement :=
  reason <- Call.expect (get_prop err "reason") TypeError ;;
  if strict_eq_str reason "invalid_token" then
    Call.emit (ConsoleWarn "sign in failed") ;;
    Call.ret (Resolved VUndefined)
  else
    Call.emit (ConsoleError "sign in failed") ;;
    Call.ret (Rejected (Reason VUndefined)).

Definition signIn (token : jsval) : M promise :=
  new_Promise (
    this <- Call.self ;;
    let creator_assignment_token := _getCreatorAssignmentToken this in
    channel_push "sign_in"
      (VObj {[ "token" := token; "creator_assignment_token" := creator_assignment_token ]}) ;;
    Call.ret [("ok", signIn_ok); ("error", signIn_error)]).

Definition signOut_ok (_ : jsval) : M settlement :=
  Call.update (set_permissions (VObj ∅)) ;;
  Call.update (set_signedIn false) ;;
  Call.emit (DispatchEvent "permissions_updated") ;;
  Call.ret (Resolved VUndefined).

(** [.receive("error", reject)] *)
Definition reject (err : jsval) : M settlement := Call.ret (Rejected (Reason err)).
(** [.receive("ok", resolve)] *)
Definition resolve (res : jsval) : M settlement := Call.ret (Resolved res).

Definition signOut : M promise :=
  new_Promise (
    channel_push "sign_out" VUndefined ;;
    Call.ret [("ok", signOut_ok); ("error", reject)]).

Definition getHost_ok (res : jsval) : M settlement :=
  host <- Call.expect (get_prop res "host") TypeError ;;
  Call.ret (Resolved host).

Definition getHost : M promise :=
  new_Promise (
    channel_push "get_host" VUndefined ;;
    Call.ret [("ok", getHost_ok); ("error", reject)]).

Definition pin (id gltfNode fileId fileAccessToken promotionToken : jsval) : M promise :=
  let payload : gmap string jsval := {[ "id" := id; "gltf_node" := gltfNode ]} in
  let payload :=
    if ToBoolean fileId && ToBoolean promotionToken then
      <["promotion_token" := promotionToken]>
        (<["file_access_token" := fileAccessToken]> (<["file_id" := fileId]> payload))
    else payload in
  new_Promise (
    channel_push "pin" (VObj payload) ;;
    Call.ret [("ok", resolve); ("error", reject)]).

Definition fetchPermissions_ok (res : jsval) : M settlement :=
  perms_token <- Call.expect (get_prop res "perms_token") TypeError ;;
  setPermissionsFromToken perms_token ;;
  perms_token' <- Call.expect (get_prop res "perms_token") TypeError ;;
  this <- Call.self ;;
  Call.ret (Resolved (VObj {[ "permsToken" := perms_token'; "permissions" := _permissions this ]})).

Definition fetchPermissions : M promise :=
  new_Promise (
    channel_push "refresh_perms_token" VUndefined ;;
    Call.ret [("ok", fetchPermissions_ok); ("error", reject)]).

Definition hide (sessionId : string) : M jsval :=
  Call.emit (AdapterBlock sessionId) ;;
  Call.update (fun this => set_blockedSessionIds ({[sessionId]} ∪ _blockedSessionIds this) this) ;;
  Call.ret VUndefined.

Definition isHidden (sessionId : string) (this : HubChannel) : bool :=
  bool_decide (sessionId ∈ _blockedSessionIds this).

Definition unhide (sessionId : string) : M jsval :=
  this <- Call.self ;;
  if negb (isHidden sessionId this) then Call.ret VUndefined
  else
    Call.emit (AdapterUnblock sessionId) ;;
    Call.emit (CompleteSync sessionId) ;;
    Call.update (fun this => set_blockedSessionIds (_blockedSessionIds this ∖ {[sessionId]}) this) ;;
    Call.ret VUndefined.
End Methods.

(** ** The other methods *)

(** Permissions that are assumed if the user becomes the creator. *)
Definition HUB_CREATOR_PERMISSIONS : list string :=
  ["update_hub"; "close_hub"; "mute_users"; "kick_users"].

(** [this._permissions && this._permissions[permission]]: the cache itself
    when it is falsy, the entry otherwise.  [permission] is the name of a
    permission, not one of the names every object inherits. *)
Definition can (permission : string) (this : HubChannel) : jsval :=
  if ToBoolean (_permissions this)
  then default VUndefined (get_prop (_permissions this) permission)
  else _permissions this.

Definition canOrWillIfCreator (permission : string) (this : HubChannel) : jsval :=
  if ToBoolean (_getCreatorAssignmentToken this)
     && bool_decide (permission ∈ HUB_CREATOR_PERMISSIONS)
  then VBool true
  else can permission this.

(** A display of the VR device API, as far as the entry event looks at it. *)
Record VRDisplay : Type := {
  isPresenting : bool;
  displayName : jsval
}.

(** What the entry event reads around the object: [navigator.getVRDisplays]
    ([None] where the browser has no such function, else the displays it
    resolves with), [navigator.userAgent], and the initial occupants of the
    NAF publisher ([None] without an adapter or a publisher). *)
Record Browser : Type := {
  getVRDisplays : option (list VRDisplay);
  userAgent : jsval;
  initialOccupants : option (list string)
}.

(** An [async] call: it has run to its end, or it waits and resumes later. *)
Inductive async (A : Type) : Type :=
| Completed (a : A)
| Awaiting (resume : M A).
Arguments Completed {A} a.
Arguments Awaiting {A} resume.

Section OtherMethods.
Context `{R : Runtime}.
#[local] Open Scope call_scope.

(** The entry event from [initialOccupantCount] on, once the display type
    is known. *)
Definition sendEntryEvent_push (env : Browser) (entryDisplayType : jsval) : M jsval :=
  let initialOccupantCount :=
    match initialOccupants env with
    | Some occupants => Z.of_nat (length occupants)
    | None => 0
    end in
  now <- Call.clock ;;
  this <- Call.self ;;
  let entryTimingFlags := getEntryTimingFlags now this in
  let entryEvent : gmap string jsval :=
    {[ "isNewDaily" := VBool (isNewDaily entryTimingFlags);
       "isNewMonthly" := VBool (isNewMonthly entryTimingFlags);
       "isNewDayWindow" := VBool (isNewDayWindow entryTimingFlags);
       "isNewMonthWindow" := VBool (isNewMonthWindow entryTimingFlags);
       "initialOccupantCount" := VNum (Some initialOccupantCount);
       "entryDisplayType" := entryDisplayType;
       "userAgent" := userAgent env ]} in
  channel_push "events:entered" (VObj entryEvent) ;;
  Call.ret VUndefined.

Definition sendEntryEvent (env : Browser) : M (async jsval) :=
  this <- Call.self ;;
  match channel this with
  | None =>
      Call.emit (ConsoleWarn "No phoenix channel initialized before room entry.") ;;
      Call.ret (Completed VUndefined)
  | Some _ =>
      match getVRDisplays env with
      | Some displays =>
          let entryDisplayType :=
            match List.find isPresenting displays with
            | Some vrDisplay => displayName vrDisplay
            | None => VStr "Screen"
            end in
          Call.ret (Awaiting (sendEntryEvent_push env entryDisplayType))
      | None =>
          v <- sendEntryEvent_push env (VStr "Screen") ;;
          Call.ret (Completed v)
      end
  end.

Definition sendObjectSpawnedEvent (objectType : jsval) : M jsval :=
  this <- Call.self ;;
  match channel this with
  | None =>
      Call.emit (ConsoleWarn "No phoenix channel initialized before object spawn.") ;;
      Call.ret VUndefined
  | Some _ =>
      channel_push "events:object_spawned" (VObj {[ "object_type" := objectType ]}) ;;
      Call.ret VUndefined
  end.

Definition subscribe (subscription : jsval) : M jsval :=
  channel_push "subscribe" (VObj {[ "subscription" := subscription ]}) ;;
  Call.ret VUndefined.

Definition allowNAFTraffic (allow : jsval) : M jsval :=
  channel_push (if ToBoolean allow then "unblock_naf" else "block_naf") (VObj ∅) ;;
  Call.ret VUndefined.

Definition unsubscribe (subscription : jsval) : M promise :=
  new_Promise (
    channel_push "unsubscribe" (VObj {[ "subscription" := subscription ]}) ;;
    Call.ret [("ok", resolve)]).

(** [sendMessage(body, type = "chat")]: the default stands in for an
    argument that is [undefined]. *)
Definition sendMessage (body type : jsval) : M jsval :=
  let type := match type with VUndefined => VStr "chat" | _ => type end in
  if negb (ToBoolean body) then Call.ret VUndefined
  else channel_push "message" (VObj {[ "body" := body; "type" := type ]}) ;; Call.ret VUndefined.

Definition unpin (id fileId : jsval) : M jsval :=
  let payload : gmap string jsval := {[ "id" := id ]} in
  let payload := if ToBoolean fileId then <["file_id" := fileId]> payload else payload in
  channel_push "unpin" (VObj payload) ;;
  Call.ret VUndefined.

Definition mute (sessionId : string) : M jsval :=
  channel_push "mute" (VObj {[ "session_id" := VStr sessionId ]}) ;;
  Call.ret VUndefined.

(** [requestSupport], [favorite] and [unfavorite] return the push itself:
    what is registered on it, which is nothing. *)
Definition requestSupport : M receivers :=
  channel_push "events:request_support" (VObj ∅) ;; Call.ret [].
Definition favorite : M receivers :=
  channel_push "favorite" (VObj ∅) ;; Call.ret [].
Definition unfavorite : M receivers :=
  channel_push "unfavorite" (VObj ∅) ;; Call.ret [].

(** The callback of the refresh timer up to its [await]. *)
Definition refresh : M promise := fetchPermissions.

(** The callback of the refresh timer after its [await], with what the
    promise of [fetchPermissions] has settled to: a rejection is rethrown
    into the promise of the callback, a result is announced. *)
Definition refresh_resume (s : settlement) : M settlement :=
  match s with
  | Resolved result =>
      Call.emit (DispatchEvent "permissions-refreshed") ;;
      Call.ret (Resolved VUndefined)
  | Rejected r => Call.ret (Rejected r)
  end.

(** An acknowledgment of the push behind [p], followed by the code that
    awaits [p] once [p] has settled. *)
Definition acknowledge_then (resume : settlement -> M settlement)
    (status : string) (payload : jsval) (p : promise) : M promise :=
  p' <- acknowledge status payload p ;;
  match p' with
  | Settled s => s' <- resume s ;; Call.ret (Settled s')
  | Pending recv => Call.ret (Pending recv)
  end.
End OtherMethods.

(** ** Vocabulary of the properties *)

Definition result_of {A} (o : outcome A) : completion A := o.1.1.
Definition object_of {A} (o : outcome A) : HubChannel := o.1.2.
Definition trace_of {A} (o : outcome A) : list effect := o.2.

(** The cached permission flag [k] as a condition: [None] when the cache
    cannot be read at all. *)
Definition cached_flag (k : string) (this : HubChannel) : option bool :=
  ToBoolean <$> get_prop (_permissions this) k.

(** [p] is the promise [call] returned after pushing its request on an
    attached channel. *)
Definition requested_by (call : M promise) (p : promise) : Prop :=
  exists now this, is_Some (channel this) /\ result_of (call now this) = Normal p.

(** What a gated call does, by the state of its flag. *)
Definition gated (flag event : string) (payload : jsval) (call : M jsval) : Prop :=
  forall now this,
    match cached_flag flag this with
    | Some false => call now this = (Normal (VStr "unauthorized"), this, [])
    | Some true =>
        match channel this with
        | Some _ => call now this = (Normal VUndefined, this, [Push event payload])
        | None => call now this = (Throw TypeError, this, [])
        end
    | None => call now this = (Throw TypeError, this, [])
    end.

Section Calendar.
Context `{R : Runtime}.

(** The date [d] is valid and falls in the calendar month of [now], in
    local time. *)
Definition same_calendar_month (now : Z) (d : Date) : Prop :=
  exists t, d = Some t /\
    localFullYear now = localFullYear t /\ localMonth now = localMonth t.

(** The date [d] is valid and falls on the calendar day of [now], in local
    time. *)
Definition same_calendar_day (now : Z) (d : Date) : Prop :=
  exists t, d = Some t /\
    localFullYear now = localFullYear t /\ localMonth now = localMonth t /\
    localDate now = localDate t.

(** The date [d] is valid and more than [ms] milliseconds before [now]. *)
Definition elapsed_exceeds (now : Z) (d : Date) (ms : Z) : Prop :=
  exists t, d = Some t /\ now - t > ms.
End Calendar.

(** ** A concrete runtime and concrete objects, to run the model on *)

Module Sample.
(** Calendar fields in UTC, from the count of days since the epoch. *)
Definition civil (t : Z) : Z * Z * Z :=
  let z := t `div` 86400000 + 719468 in
  let era := z `div` 146097 in
  let doe := z - era * 146097 in
  let yoe := (doe - doe `div` 1460 + doe `div` 36524 - doe `div` 146096) `div` 365 in
  let doy := doe - (365 * yoe + yoe `div` 4 - yoe `div` 100) in
  let mp := (5 * doy + 2) `div` 153 in
  let d := doy - (153 * mp + 2) `div` 5 + 1 in
  let m := if mp <? 10 then mp + 3 else mp - 9 in
  (if m <=? 2 then yoe + era * 400 + 1 else yoe + era * 400, m - 1, d).

Definition perms : jsval :=
  VObj {[ "update_hub" := VBool true; "close_hub" := VBool false;
          "exp" := VNum (Some 1600000000) ]}.

Definition runtime : Runtime := {|
  jwtDecode := fun token =>
    if strict_eq_str token "header.payload.signature" then Some perms else None;
  StringToNumber := fun s => if String.eqb s "" then Some 0 else NaN;
  Date_parse := fun s =>
    if String.eqb s "2020-09-13T10:00:00.000Z" then Some 1599991200000 else NaN;
  localFullYear := fun t => (civil t).1.1;
  localMonth := fun t => (civil t).1.2;
  localDate := fun t => (civil t).2
|}.

Definition store0 : Store := {|
  credentials_token := VNull;
  activity_lastEnteredAt := VStr "2020-09-13T10:00:00.000Z";
  creatorAssignmentTokens := None
|}.

(** A fresh object, and the same with a channel attached. *)
Definition fresh : HubChannel := constructor store0 "hub1".
Definition attached : HubChannel := set_channel (Some "hub:hub1") fresh.
(** An object holding the sample permissions, signed in, with one hidden
    session. *)
Definition member : HubChannel :=
  set_blockedSessionIds {[ "s1" ]} (set_signedIn true (set_permissions perms attached)).

(** 2020-09-13T12:00:00Z and 2020-10-20T00:00:00Z. *)
Definition noon : Z := 1599998400000.
Definition later : Z := 1603152000000.
End Sample.

Module Scenario.
(** A permission set without expiry. *)
Definition perms_noexp : gmap string jsval := {[ "update_hub" := VBool true ]}.

(** A decoder that also knows a token whose payload is [null] and one
    whose payload has no [exp]. *)
Definition runtime : Runtime := {|
  jwtDecode := fun token =>
    if strict_eq_str token "header.null.signature" then Some VNull
    else if strict_eq_str token "header.noexp.signature" then Some (VObj perms_noexp)
    else jwtDecode (Runtime := Sample.runtime) token;
  StringToNumber := StringToNumber (Runtime := Sample.runtime);
  Date_parse := Date_parse (Runtime := Sample.runtime);
  localFullYear := localFullYear (Runtime := Sample.runtime);
  localMonth := localMonth (Runtime := Sample.runtime);
  localDate := localDate (Runtime := Sample.runtime)
|}.

(** A store with creator-assignment tokens for two hubs, [hub1] twice. *)
Definition creator_store : Store := {|
  credentials_token := VStr "credentials";
  activity_lastEnteredAt := VUndefined;
  creatorAssignmentTokens :=
    Some [ {| entry_hubId := "hub0"; creatorAssignmentToken := VStr "zero" |};
           {| entry_hubId := "hub1"; creatorAssignmentToken := VStr "first" |};
           {| entry_hubId := "hub1"; creatorAssignmentToken := VStr "second" |} ]
|}.

Definition creator : HubChannel := constructor creator_store "hub1".

Definition browser : Browser := {|
  getVRDisplays :=
    Some [ {| isPresenting := false; displayName := VStr "Idle HMD" |};
           {| isPresenting := true; displayName := VStr "Headset" |} ];
  userAgent := VStr "Mozilla/5.0";
  initialOccupants := Some ["s1"; "s2"]
|}.

Definition desktop : Browser := {|
  getVRDisplays := None;
  userAgent := VStr "Mozilla/5.0";
  initialOccupants := None
|}.
End Scenario.

(** ** Vocabulary of the further properties *)

(** What [can flag] tells about a gated call: a truthy answer means the call
    pushes its request on an attached channel, a falsy answer on a readable
    cache means the call refuses, and on a cache that is [null] or
    [undefined] [can] hands back the cache where the call throws. *)
Definition predicted_by_can (flag event : string) (payload : jsval) (call : M jsval) : Prop :=
  forall now this,
    (ToBoolean (can flag this) = true -> is_Some (channel this) ->
     call now this = (Normal VUndefined, this, [Push event payload])) /\
    (ToBoolean (can flag this) = false ->
     _permissions this <> VNull -> _permissions this <> VUndefined ->
     call now this = (Normal (VStr "unauthorized"), this, [])) /\
    (_permissions this = VNull \/ _permissions this = VUndefined ->
     can flag this = _permissions this /\
     call now this = (Throw TypeError, this, [])).

(** Without a channel the call still returns a promise: one rejected with
    the [TypeError] of the push, and nothing else happens. *)
Definition rejects_detached (call : M promise) : Prop :=
  forall now this,
    channel this = None ->
    call now this = (Normal (Settled (Rejected (Uncaught TypeError))), this, []).

(** The call leaves the object as it found it, however it completes. *)
Definition keeps_object {A} (call : M A) : Prop :=
  forall now this, object_of (call now this) = this.

(** On an attached channel the call pushes exactly [event] with [payload]
    and completes; without a channel it throws and pushes nothing. *)
Definition pushes {A} (event : string) (payload : jsval) (call : M A) : Prop :=
  forall now this,
    match channel this with
    | Some _ =>
        trace_of (call now this) = [Push event payload] /\
        exists a, result_of (call now this) = Normal a
    | None => call now this = (Throw TypeError, this, [])
    end.

(** The fields of the object that hiding does not touch. *)
Definition same_but_hidden (this after : HubChannel) : Prop :=
  store after = store this /\ hubId after = hubId this /\
  _signedIn after = _signedIn this /\ _permissions after = _permissions this /\
  channel after = channel this.

Section EntryEvent.
Context `{R : Runtime}.

(** [o] is the outcome of a call that, at time [now] on the object [this],
    pushes one entry event and nothing else: the event carries the four
    flags of [getEntryTimingFlags now this], the number of initial
    occupants of [env] (0 without a publisher), [displayType] and the user
    agent of [env]. *)
Definition entry_event_pushed (env : Browser) (now : Z) (this : HubChannel)
    (displayType : jsval) (o : outcome jsval) : Prop :=
  exists entryEvent : gmap string jsval,
    o = (Normal VUndefined, this, [Push "events:entered" (VObj entryEvent)]) /\
    entryEvent !! "isNewDaily" = Some (VBool (isNewDaily (getEntryTimingFlags now this))) /\
    entryEvent !! "isNewMonthly" =
      Some (VBool (isNewMonthly (getEntryTimingFlags now this))) /\
    entryEvent !! "isNewDayWindow" =
      Some (VBool (isNewDayWindow (getEntryTimingFlags now this))) /\
    entryEvent !! "isNewMonthWindow" =
      Some (VBool (isNewMonthWindow (getEntryTimingFlags now this))) /\
    entryEvent !! "initialOccupantCount" =
      Some (VNum (Some (from_option (fun l => Z.of_nat (length l)) 0
                          (initialOccupants env)))) /\
    entryEvent !! "entryDisplayType" = Some displayType /\
    entryEvent !! "userAgent" = Some (userAgent env).
End EntryEvent.

(** ** Running calls *)

Ltac run :=
  unfold Call.bind, Call.ret, Call.throw, Call.self, Call.update, Call.emit,
    Call.clock, Call.expect; simpl.

Ltac by_flag :=
  intros now this; unfold cached_flag, permission, channel_push; run;
  destruct (get_prop (_permissions this) _) as [v|]; simpl;
  [ destruct (ToBoolean v); simpl; [ destruct (channel this); simpl | ] | ];
  reflexivity.

(** ** The sample calendar *)

Example civil_noon : Sample.civil Sample.noon = (2020, 8, 13).
Proof. reflexivity. Qed.
Example civil_later : Sample.civil Sample.later = (2020, 9, 20).
Proof. reflexivity. Qed.
Example civil_parsed : Sample.civil 1599991200000 = (2020, 8, 13).
Proof. reflexivity. Qed.

(** ** Entry-timing flags *)

Section EntryTiming.
Context `{R : Runtime}.

Lemma MS_PER_DAY_value : MS_PER_DAY = 86400000.
Proof. reflexivity. Qed.

Lemma MS_PER_MONTH_value : MS_PER_MONTH = 2592000000.
Proof. reflexivity. Qed.

Lemma num_eqb_true (a b : jsnum) :
  num_eqb a b = true <-> exists x y, a = Some x /\ b = Some y /\ x = y.
Proof.
  split.
  - destruct a as [x|], b as [y|]; simpl; try discriminate.
    intros H. exists x, y. apply Z.eqb_eq in H. auto.
  - intros (x & y & -> & -> & ->). simpl. apply Z.eqb_refl.
Qed.

Lemma num_gtb_true (a b : jsnum) :
  num_gtb a b = true <-> exists x y, a = Some x /\ b = Some y /\ x > y.
Proof.
  split.
  - destruct a as [x|], b as [y|]; simpl; try discriminate.
    intros H. exists x, y. apply Z.gtb_gt in H. auto.
  - intros (x & y & -> & -> & H). simpl. apply Z.gtb_gt. exact H.
Qed.

Lemma isSameMonth_spec (now : Z) (d : Date) :
  isSameMonth (Some now) d = true <-> same_calendar_month now d.
Proof.
  unfold isSameMonth, same_calendar_month, getFullYear, getMonth.
  rewrite andb_true_iff, !num_eqb_true. split.
  - intros [(x & y & Hx & Hy & Hxy) (x' & y' & Hx' & Hy' & Hxy')].
    destruct d as [t|]; simpl in *; [|discriminate].
    exists t. split; [reflexivity|]. split; congruence.
  - intros (t & -> & Hy & Hm). simpl. split; eauto.
Qed.

Lemma isSameDay_spec (now : Z) (d : Date) :
  isSameDay (Some now) d = true <-> same_calendar_day now d.
Proof.
  unfold isSameDay, same_calendar_day.
  rewrite andb_true_iff, isSameMonth_spec, num_eqb_true.
  unfold same_calendar_month, getDate. split.
  - intros [(t & -> & Hy & Hm) (x & y & Hx & Hy' & Hxy)].
    simpl in *. exists t. repeat split; congruence.
  - intros (t & -> & Hy & Hm & Hd). split; [eauto|]. simpl. eauto.
Qed.

Lemma getEntryTimingFlags_stored (now : Z) (this : HubChannel) :
  ToBoolean (activity_lastEnteredAt (store this)) = true ->
  let lastEntered := Date_new (activity_lastEnteredAt (store this)) in
  getEntryTimingFlags now this =
    {| isNewDaily := negb (isSameDay (Some now) lastEntered);
       isNewMonthly := negb (isSameMonth (Some now) lastEntered);
       isNewDayWindow := num_gtb (num_sub (Some now) lastEntered) (Some MS_PER_DAY);
       isNewMonthWindow := num_gtb (num_sub (Some now) lastEntered) (Some MS_PER_MONTH) |}.
Proof. intros H. unfold getEntryTimingFlags. rewrite H. reflexivity. Qed.

Lemma window_spec (now : Z) (d : Date) (ms : Z) :
  num_gtb (num_sub (Some now) d) (Some ms) = true <-> elapsed_exceeds now d ms.
Proof.
  unfold elapsed_exceeds. rewrite num_gtb_true. split.
  - intros (x & y & Hx & Hy & Hxy). destruct d as [t|]; simpl in *; [|discriminate].
    exists t. split; [reflexivity|]. congruence.
  - intros (t & -> & H). simpl. eauto.
Qed.

(** C4: with a last-entry timestamp in the store, [isNewDaily] is false
    exactly when that timestamp and the current time agree on the local
    calendar year, month and day of the month, [isNewMonthly] is false
    exactly when they agree on year and month, and each flag is true
    otherwise. *)
Theorem getEntryTimingFlags_calendar (now : Z) (this : HubChannel) :
  ToBoolean (activity_lastEnteredAt (store this)) = true ->
  let lastEntered := Date_new (activity_lastEnteredAt (store this)) in
  let flags := getEntryTimingFlags now this in
  (isNewDaily flags = false <-> same_calendar_day now lastEntered) /\
  (isNewDaily flags = true <-> ~ same_calendar_day now lastEntered) /\
  (isNewMonthly flags = false <-> same_calendar_month now lastEntered) /\
  (isNewMonthly flags = true <-> ~ same_calendar_month now lastEntered).
Proof.
  intros H lastEntered flags. subst flags.
  rewrite (getEntryTimingFlags_stored now this H). simpl.
  fold lastEntered.
  rewrite <- isSameDay_spec, <- isSameMonth_spec.
  destruct (isSameDay (Some now) lastEntered), (isSameMonth (Some now) lastEntered);
    simpl; repeat split; intros; try congruence; try tauto.
Qed.

(** C5: with a last-entry timestamp in the store, [isNewDayWindow] is true
    exactly when more than 86,400,000 ms have elapsed since it, and
    [isNewMonthWindow] exactly when more than 2,592,000,000 ms have. *)
Theorem getEntryTimingFlags_windows (now : Z) (this : HubChannel) :
  ToBoolean (activity_lastEnteredAt (store this)) = true ->
  let lastEntered := Date_new (activity_lastEnteredAt (store this)) in
  let flags := getEntryTimingFlags now this in
  (isNewDayWindow flags = true <-> elapsed_exceeds now lastEntered 86400000) /\
  (isNewMonthWindow flags = true <-> elapsed_exceeds now lastEntered 2592000000).
Proof.
  intros H lastEntered flags. subst flags.
  rewrite (getEntryTimingFlags_stored now this H). simpl. fold lastEntered.
  rewrite <- MS_PER_DAY_value, <- MS_PER_MONTH_value.
  split; apply window_spec.
Qed.

(** C10: when the stored last-entry timestamp is absent or falsy, all four
    flags are true. *)
Theorem getEntryTimingFlags_first_entry (now : Z) (this : HubChannel) :
  ToBoolean (activity_lastEnteredAt (store this)) = false ->
  getEntryTimingFlags now this =
    {| isNewDaily := true; isNewMonthly := true;
       isNewDayWindow := true; isNewMonthWindow := true |}.
Proof. intros H. unfold getEntryTimingFlags. rewrite H. reflexivity. Qed.
End EntryTiming.

Lemma getEntryTimingFlags_calendar_witness :
  ToBoolean (activity_lastEnteredAt (store Sample.member)) = true /\
  let lastEntered :=
    Date_new (R := Sample.runtime) (activity_lastEnteredAt (store Sample.member)) in
  let same_day := getEntryTimingFlags (R := Sample.runtime) Sample.noon Sample.member in
  let next_month := getEntryTimingFlags (R := Sample.runtime) Sample.later Sample.member in
  (isNewDaily same_day = false <->
     same_calendar_day (R := Sample.runtime) Sample.noon lastEntered) /\
  (isNewMonthly next_month = true <->
     ~ same_calendar_month (R := Sample.runtime) Sample.later lastEntered).
Proof.
  split; [reflexivity|]. split.
  - apply (getEntryTimingFlags_calendar (R := Sample.runtime) Sample.noon Sample.member).
    reflexivity.
  - apply (getEntryTimingFlags_calendar (R := Sample.runtime) Sample.later Sample.member).
    reflexivity.
Defined.

Lemma getEntryTimingFlags_windows_witness :
  ToBoolean (activity_lastEnteredAt (store Sample.member)) = true /\
  let lastEntered :=
    Date_new (R := Sample.runtime) (activity_lastEnteredAt (store Sample.member)) in
  let flags := getEntryTimingFlags (R := Sample.runtime) Sample.later Sample.member in
  (isNewDayWindow flags = true <->
     elapsed_exceeds Sample.later lastEntered 86400000) /\
  (isNewMonthWindow flags = true <->
     elapsed_exceeds Sample.later lastEntered 2592000000).
Proof.
  split; [reflexivity|].
  apply (getEntryTimingFlags_windows (R := Sample.runtime) Sample.later Sample.member).
  reflexivity.
Defined.

Lemma getEntryTimingFlags_first_entry_witness :
  let this := constructor
    {| credentials_token := VNull; activity_lastEnteredAt := VUndefined;
       creatorAssignmentTokens := None |} "hub1" in
  ToBoolean (activity_lastEnteredAt (store this)) = false /\
  getEntryTimingFlags (R := Sample.runtime) Sample.noon this =
    {| isNewDaily := true; isNewMonthly := true;
       isNewDayWindow := true; isNewMonthWindow := true |}.
Proof.
  split; [reflexivity|].
  apply (getEntryTimingFlags_first_entry (R := Sample.runtime)). reflexivity.
Defined.

Example flags_same_day :
  getEntryTimingFlags (R := Sample.runtime) Sample.noon Sample.member =
    {| isNewDaily := false; isNewMonthly := false;
       isNewDayWindow := false; isNewMonthWindow := false |}.
Proof. reflexivity. Qed.

Example flags_next_month :
  getEntryTimingFlags (R := Sample.runtime) Sample.later Sample.member =
    {| isNewDaily := true; isNewMonthly := true;
       isNewDayWindow := true; isNewMonthWindow := true |}.
Proof. reflexivity. Qed.

(** An unparsable stored string is an invalid date: no calendar field agrees
    and no time has elapsed. *)
Example flags_unparsable :
  getEntryTimingFlags (R := Sample.runtime) Sample.noon
    (constructor {| credentials_token := VNull; activity_lastEnteredAt := VStr "yesterday";
                    creatorAssignmentTokens := None |} "hub1") =
    {| isNewDaily := true; isNewMonthly := true;
       isNewDayWindow := false; isNewMonthWindow := false |}.
Proof. reflexivity. Qed.

(** ** Authorization-gated calls *)

Section Authorization.
Context `{R : Runtime}.

Lemma permission_read (k : string) (now : Z) (this : HubChannel) (v : jsval) :
  get_prop (_permissions this) k = Some v ->
  permission k now this = (Normal v, this, []).
Proof. intros H. unfold permission. run. rewrite H. reflexivity. Qed.

Lemma permission_unreadable (k : string) (now : Z) (this : HubChannel) :
  get_prop (_permissions this) k = None ->
  permission k now this = (Throw TypeError, this, []).
Proof. intros H. unfold permission. run. rewrite H. reflexivity. Qed.

Lemma cached_flag_inv (k : string) (this : HubChannel) (b : bool) :
  cached_flag k this = Some b ->
  exists v, get_prop (_permissions this) k = Some v /\ ToBoolean v = b.
Proof.
  unfold cached_flag. destruct (get_prop _ k) as [v|]; simpl; [|discriminate].
  intros [= <-]. eauto.
Qed.

Lemma channel_push_attached (event : string) (payload : jsval) (now : Z) (this : HubChannel) :
  is_Some (channel this) ->
  channel_push event payload now this = (Normal tt, this, [Push event payload]).
Proof. intros [c Hc]. unfold channel_push. run. rewrite Hc. reflexivity. Qed.

Lemma updateScene_gated (url : jsval) :
  gated "update_hub" "update_scene" (VObj {[ "url" := url ]}) (updateScene url).
Proof. unfold updateScene. by_flag. Qed.

Lemma rename_gated (name : jsval) :
  gated "update_hub" "update_hub" (VObj {[ "name" := name ]}) (rename name).
Proof. unfold rename. by_flag. Qed.

Lemma closeHub_gated : gated "close_hub" "close_hub" (VObj ∅) closeHub.
Proof. unfold closeHub. by_flag. Qed.

Lemma gated_unauthorized_iff (flag event : string) (payload : jsval) (call : M jsval) :
  gated flag event payload call ->
  forall now this,
    result_of (call now this) = Normal (VStr "unauthorized") <->
    cached_flag flag this = Some false.
Proof.
  intros G now this. specialize (G now this).
  destruct (cached_flag flag this) as [[|]|].
  - destruct (channel this); rewrite G; simpl; split; discriminate.
  - rewrite G. simpl. tauto.
  - rewrite G. simpl. split; discriminate.
Qed.

(** C1: when the cached flag a gated call looks at is falsy, [rename],
    [updateScene] and [closeHub] each return ["unauthorized"], leave the
    object as it is and push nothing. *)
Theorem gated_calls_unauthorized (now : Z) (this : HubChannel) (name url : jsval) :
  (cached_flag "update_hub" this = Some false ->
     rename name now this = (Normal (VStr "unauthorized"), this, []) /\
     updateScene url now this = (Normal (VStr "unauthorized"), this, [])) /\
  (cached_flag "close_hub" this = Some false ->
     closeHub now this = (Normal (VStr "unauthorized"), this, [])).
Proof.
  split.
  - intros H. split.
    + pose proof (rename_gated name now this) as G. rewrite H in G. exact G.
    + pose proof (updateScene_gated url now this) as G. rewrite H in G. exact G.
  - intros H. pose proof (closeHub_gated now this) as G. rewrite H in G. exact G.
Qed.

(** C9: [updateScene] is gated on the cached [update_hub] flag: it returns
    ["unauthorized"] exactly when that flag is falsy, with a truthy flag it
    pushes one [update_scene] request carrying the url on the attached
    channel, and [rename] returns ["unauthorized"] under exactly the same
    condition. *)
Theorem updateScene_gated_on_update_hub (now : Z) (this : HubChannel) (url name : jsval) :
  (result_of (updateScene url now this) = Normal (VStr "unauthorized") <->
     cached_flag "update_hub" this = Some false) /\
  (cached_flag "update_hub" this = Some true -> is_Some (channel this) ->
     updateScene url now this =
       (Normal VUndefined, this, [Push "update_scene" (VObj {[ "url" := url ]})])) /\
  (result_of (updateScene url now this) = Normal (VStr "unauthorized") <->
     result_of (rename name now this) = Normal (VStr "unauthorized")).
Proof.
  pose proof (gated_unauthorized_iff _ _ _ _ (updateScene_gated url) now this) as U.
  pose proof (gated_unauthorized_iff _ _ _ _ (rename_gated name) now this) as N.
  split; [exact U|]. split; [|rewrite U, N; tauto].
  intros H [c Hc]. pose proof (updateScene_gated url now this) as G.
  rewrite H, Hc in G. exact G.
Qed.
End Authorization.

Lemma gated_calls_unauthorized_witness :
  cached_flag "update_hub" Sample.fresh = Some false /\
  cached_flag "close_hub" Sample.member = Some false /\
  rename (VStr "Lobby") Sample.noon Sample.fresh =
    (Normal (VStr "unauthorized"), Sample.fresh, []) /\
  updateScene (VStr "https://example.org/scene.glb") Sample.noon Sample.fresh =
    (Normal (VStr "unauthorized"), Sample.fresh, []) /\
  closeHub Sample.noon Sample.member = (Normal (VStr "unauthorized"), Sample.member, []).
Proof.
  split; [reflexivity|]. split; [reflexivity|].
  pose proof (gated_calls_unauthorized Sample.noon Sample.fresh
                (VStr "Lobby") (VStr "https://example.org/scene.glb")) as [Hu _].
  pose proof (gated_calls_unauthorized Sample.noon Sample.member
                VUndefined VUndefined) as [_ Hc].
  destruct (Hu eq_refl) as [Hr Hs].
  split; [exact Hr|]. split; [exact Hs|]. exact (Hc eq_refl).
Defined.

Lemma updateScene_gated_on_update_hub_witness :
  cached_flag "update_hub" Sample.member = Some true /\
  is_Some (channel Sample.member) /\
  updateScene (VStr "https://example.org/scene.glb") Sample.noon Sample.member =
    (Normal VUndefined, Sample.member,
     [Push "update_scene" (VObj {[ "url" := VStr "https://example.org/scene.glb" ]})]).
Proof.
  split; [reflexivity|]. split; [eexists; reflexivity|].
  apply (updateScene_gated_on_update_hub Sample.noon Sample.member
           (VStr "https://example.org/scene.glb") VUndefined).
  - reflexivity.
  - eexists; reflexivity.
Defined.

Example setPhoenixChannel_attaches :
  setPhoenixChannel "hub:hub1" Sample.noon Sample.fresh =
    (Normal VUndefined, Sample.attached, []).
Proof. reflexivity. Qed.

(** With the permission but no channel attached, the push itself fails. *)
Example updateScene_detached :
  updateScene (VStr "u") Sample.noon (set_permissions Sample.perms Sample.fresh) =
    (Throw TypeError, set_permissions Sample.perms Sample.fresh, []).
Proof. reflexivity. Qed.

(** ** Hidden sessions *)

Section Hidden.
Context `{R : Runtime}.

Lemma isHidden_true (s : string) (this : HubChannel) :
  isHidden s this = true <-> s ∈ _blockedSessionIds this.
Proof. unfold isHidden. apply bool_decide_eq_true. Qed.

Lemma isHidden_false (s : string) (this : HubChannel) :
  isHidden s this = false <-> s ∉ _blockedSessionIds this.
Proof. unfold isHidden. apply bool_decide_eq_false. Qed.

Lemma hide_outcome (s : string) (now : Z) (this : HubChannel) :
  hide s now this =
    (Normal VUndefined, set_blockedSessionIds ({[s]} ∪ _blockedSessionIds this) this,
     [AdapterBlock s]).
Proof. reflexivity. Qed.

Lemma unhide_hidden (s : string) (now : Z) (this : HubChannel) :
  s ∈ _blockedSessionIds this ->
  unhide s now this =
    (Normal VUndefined, set_blockedSessionIds (_blockedSessionIds this ∖ {[s]}) this,
     [AdapterUnblock s; CompleteSync s]).
Proof.
  intros H. apply isHidden_true in H. unfold unhide. run. rewrite H. reflexivity.
Qed.

(** C7: [hide s] adds [s] to the blocked-session set, so that [isHidden s]
    holds afterwards; [unhide s] with [s] not in the set changes nothing and
    makes no adapter call; [unhide s] with [s] in the set removes it. *)
Theorem hide_unhide_blocked_set (s : string) (now : Z) (this : HubChannel) :
  (let after := object_of (hide s now this) in
   result_of (hide s now this) = Normal VUndefined /\
   _blockedSessionIds after = {[s]} ∪ _blockedSessionIds this /\
   isHidden s after = true) /\
  (s ∉ _blockedSessionIds this ->
   unhide s now this = (Normal VUndefined, this, [])) /\
  (s ∈ _blockedSessionIds this ->
   let after := object_of (unhide s now this) in
   result_of (unhide s now this) = Normal VUndefined /\
   _blockedSessionIds after = _blockedSessionIds this ∖ {[s]} /\
   isHidden s after = false).
Proof.
  split; [|split].
  - rewrite hide_outcome. simpl. split; [reflexivity|]. split; [reflexivity|].
    apply isHidden_true. simpl. set_solver.
  - intros H. apply isHidden_false in H. unfold unhide. run. rewrite H. simpl.
    destruct this; reflexivity.
  - intros H. rewrite (unhide_hidden s now this H). simpl.
    split; [reflexivity|]. split; [reflexivity|].
    apply isHidden_false. simpl.
    rewrite elem_of_difference, elem_of_singleton. tauto.
Qed.
End Hidden.

Lemma hide_unhide_blocked_set_witness :
  ("s2" ∉ _blockedSessionIds Sample.member) /\
  ("s1" ∈ _blockedSessionIds Sample.member) /\
  unhide "s2" Sample.noon Sample.member = (Normal VUndefined, Sample.member, []) /\
  isHidden "s1" (object_of (unhide "s1" Sample.noon Sample.member)) = false.
Proof.
  assert (H2 : "s2" ∉ _blockedSessionIds Sample.member) by (vm_compute; discriminate).
  assert (H1 : "s1" ∈ _blockedSessionIds Sample.member) by (vm_compute; reflexivity).
  split; [exact H2|]. split; [exact H1|].
  destruct (hide_unhide_blocked_set "s2" Sample.noon Sample.member) as (_ & Hn & _).
  destruct (hide_unhide_blocked_set "s1" Sample.noon Sample.member) as (_ & _ & Hy).
  split; [exact (Hn H2)|]. exact (proj2 (proj2 (Hy H1))).
Defined.

Example hide_then_unhide :
  let hidden := object_of (hide "s2" Sample.noon Sample.member) in
  isHidden "s2" Sample.member = false /\
  isHidden "s2" hidden = true /\
  trace_of (unhide "s2" Sample.noon hidden) = [AdapterUnblock "s2"; CompleteSync "s2"] /\
  isHidden "s2" (object_of (unhide "s2" Sample.noon hidden)) = false.
Proof. vm_compute. repeat split. Qed.

(** ** Permissions from a token *)

Section Permissions.
Context `{R : Runtime}.

Lemma setPermissionsFromToken_decoded (token perms exp : jsval) (now : Z) (this : HubChannel) :
  jwtDecode token = Some perms ->
  get_prop perms "exp" = Some exp ->
  setPermissionsFromToken token now this =
    (Normal VUndefined, set_permissions perms this,
     [DispatchEvent "permissions_updated"; SetTimeout (nextRefresh exp now)]).
Proof.
  intros Hd He. unfold setPermissionsFromToken, permission. run.
  rewrite Hd. simpl. rewrite He. reflexivity.
Qed.

Lemma setPermissionsFromToken_undecodable (token : jsval) (now : Z) (this : HubChannel) :
  jwtDecode token = None ->
  setPermissionsFromToken token now this = (Throw InvalidTokenError, this, []).
Proof. intros Hd. unfold setPermissionsFromToken. run. rewrite Hd. reflexivity. Qed.

Lemma setPermissionsFromToken_normal (token v : jsval) (now : Z) (this after : HubChannel)
    (t : list effect) :
  setPermissionsFromToken token now this = (Normal v, after, t) ->
  jwtDecode token = Some (_permissions after).
Proof.
  unfold setPermissionsFromToken, permission. run.
  destruct (jwtDecode token) as [perms|]; simpl; [|discriminate].
  destruct (get_prop perms "exp") as [exp|]; simpl; [|discriminate].
  intros [= _ <- _]. reflexivity.
Qed.

Lemma nextRefresh_number (exp now : Z) :
  nextRefresh (VNum (Some exp)) now =
    num_sub (TimeClip (Some (exp * 1000 - 60000))) (Some now).
Proof. reflexivity. Qed.

Lemma TimeClip_in_range (t : Z) :
  Z.abs t <= MAX_TIME_VALUE -> TimeClip (Some t) = Some t.
Proof. intros H. unfold TimeClip. apply Z.leb_le in H. rewrite H. reflexivity. Qed.

(** C8: for a token that decodes to a permission set with expiry [exp], in
    seconds since the epoch, [setPermissionsFromToken] stores the decoded
    set, dispatches [permissions_updated] and then sets exactly one timer,
    whose delay is the date one minute before the expiry minus the current
    time: [exp * 1000 - 60000 - now] milliseconds whenever that date is in
    the range of dates. *)
Theorem setPermissionsFromToken_schedules_refresh
    (token perms : jsval) (exp now : Z) (this : HubChannel) :
  jwtDecode token = Some perms ->
  get_prop perms "exp" = Some (VNum (Some exp)) ->
  setPermissionsFromToken token now this =
    (Normal VUndefined, set_permissions perms this,
     [DispatchEvent "permissions_updated";
      SetTimeout (num_sub (TimeClip (Some (exp * 1000 - 60000))) (Some now))]) /\
  (Z.abs (exp * 1000 - 60000) <= MAX_TIME_VALUE ->
   trace_of (setPermissionsFromToken token now this) =
     [DispatchEvent "permissions_updated"; SetTimeout (Some (exp * 1000 - 60000 - now))]).
Proof.
  intros Hd He.
  rewrite (setPermissionsFromToken_decoded token perms _ now this Hd He).
  rewrite nextRefresh_number. split; [reflexivity|].
  intros Hr. rewrite (TimeClip_in_range _ Hr). reflexivity.
Qed.
End Permissions.

Lemma setPermissionsFromToken_schedules_refresh_witness :
  let token := VStr "header.payload.signature" in
  jwtDecode (Runtime := Sample.runtime) token = Some Sample.perms /\
  get_prop Sample.perms "exp" = Some (VNum (Some 1600000000)) /\
  Z.abs (1600000000 * 1000 - 60000) <= MAX_TIME_VALUE /\
  trace_of (setPermissionsFromToken (R := Sample.runtime) token Sample.noon Sample.attached) =
    [DispatchEvent "permissions_updated";
     SetTimeout (Some (1600000000 * 1000 - 60000 - Sample.noon))].
Proof.
  assert (Hr : Z.abs (1600000000 * 1000 - 60000) <= MAX_TIME_VALUE)
    by (unfold MAX_TIME_VALUE; lia).
  split; [reflexivity|]. split; [reflexivity|]. split; [exact Hr|].
  apply (setPermissionsFromToken_schedules_refresh (R := Sample.runtime)
           (VStr "header.payload.signature") Sample.perms 1600000000
           Sample.noon Sample.attached eq_refl eq_refl).
  exact Hr.
Defined.

(** The sample token expires at 12:26:40; at noon the refresh is 25 minutes
    and 40 seconds away. *)
Example refresh_delay_at_noon :
  trace_of (setPermissionsFromToken (R := Sample.runtime)
              (VStr "header.payload.signature") Sample.noon Sample.attached) =
    [DispatchEvent "permissions_updated"; SetTimeout (Some 1540000)].
Proof. reflexivity. Qed.

(** An expiry beyond the range of dates gives an invalid date and a [NaN]
    delay. *)
Example refresh_delay_out_of_range :
  nextRefresh (R := Sample.runtime) (VNum (Some 10000000000000)) Sample.noon = NaN.
Proof. reflexivity. Qed.

(** ** Requests and their acknowledgments *)

Section Acknowledgments.
Context `{R : Runtime}.

Lemma new_Promise_pushed (event : string) (payload : jsval) (recv : receivers)
    (now : Z) (this : HubChannel) :
  is_Some (channel this) ->
  new_Promise (Call.bind (channel_push event payload) (fun _ => Call.ret recv)) now this =
    (Normal (Pending recv), this, [Push event payload]).
Proof.
  intros H. unfold new_Promise. run.
  rewrite (channel_push_attached event payload now this H). reflexivity.
Qed.

Lemma signIn_pushed (token : jsval) (now : Z) (this : HubChannel) :
  is_Some (channel this) ->
  signIn token now this =
    (Normal (Pending [("ok", signIn_ok); ("error", signIn_error)]), this,
     [Push "sign_in"
        (VObj {[ "token" := token;
                 "creator_assignment_token" := _getCreatorAssignmentToken this ]})]).
Proof.
  intros [c Hc]. unfold signIn, new_Promise, channel_push. run. rewrite Hc. reflexivity.
Qed.

Lemma signIn_requested (token : jsval) (p : promise) :
  requested_by (signIn token) p ->
  p = Pending [("ok", signIn_ok); ("error", signIn_error)].
Proof.
  intros (now & this & Hc & Hp). rewrite (signIn_pushed token now this Hc) in Hp.
  unfold result_of in Hp. simpl in Hp. congruence.
Qed.

Lemma signOut_requested (p : promise) :
  requested_by signOut p -> p = Pending [("ok", signOut_ok); ("error", reject)].
Proof.
  intros (now & this & Hc & Hp). unfold signOut in Hp.
  rewrite (new_Promise_pushed _ _ _ now this Hc) in Hp.
  unfold result_of in Hp. simpl in Hp. congruence.
Qed.

Lemma getHost_requested (p : promise) :
  requested_by getHost p -> p = Pending [("ok", getHost_ok); ("error", reject)].
Proof.
  intros (now & this & Hc & Hp). unfold getHost in Hp.
  rewrite (new_Promise_pushed _ _ _ now this Hc) in Hp.
  unfold result_of in Hp. simpl in Hp. congruence.
Qed.

Lemma pin_requested (id gltfNode fileId fileAccessToken promotionToken : jsval) (p : promise) :
  requested_by (pin id gltfNode fileId fileAccessToken promotionToken) p ->
  p = Pending [("ok", resolve); ("error", reject)].
Proof.
  intros (now & this & Hc & Hp). unfold pin in Hp.
  rewrite (new_Promise_pushed _ _ _ now this Hc) in Hp.
  unfold result_of in Hp. simpl in Hp. congruence.
Qed.

Lemma fetchPermissions_requested (p : promise) :
  requested_by fetchPermissions p ->
  p = Pending [("ok", fetchPermissions_ok); ("error", reject)].
Proof.
  intros (now & this & Hc & Hp). unfold fetchPermissions in Hp.
  rewrite (new_Promise_pushed _ _ _ now this Hc) in Hp.
  unfold result_of in Hp. simpl in Hp. congruence.
Qed.

Lemma signIn_ok_decoded (payload perms_token perms exp : jsval) (now : Z) (this : HubChannel) :
  get_prop payload "perms_token" = Some perms_token ->
  jwtDecode perms_token = Some perms ->
  get_prop perms "exp" = Some exp ->
  signIn_ok payload now this =
    (Normal (Resolved VUndefined), set_signedIn true (set_permissions perms this),
     [DispatchEvent "permissions_updated"; SetTimeout (nextRefresh exp now)]).
Proof.
  intros Hp Hd He. unfold signIn_ok. run. rewrite Hp. simpl.
  rewrite (setPermissionsFromToken_decoded perms_token perms exp now this Hd He).
  reflexivity.
Qed.

Lemma signIn_ok_normal (payload : jsval) (s : settlement) (now : Z)
    (this after : HubChannel) (t : list effect) :
  signIn_ok payload now this = (Normal s, after, t) ->
  s = Resolved VUndefined /\ _signedIn after = true /\
  exists perms_token,
    get_prop payload "perms_token" = Some perms_token /\
    jwtDecode perms_token = Some (_permissions after).
Proof.
  unfold signIn_ok. run.
  destruct (get_prop payload "perms_token") as [perms_token|]; simpl; [|discriminate].
  destruct (setPermissionsFromToken perms_token now this) as [[[v|e] this1] t1] eqn:Hs;
    simpl; [|discriminate].
  intros [= <- <- _]. apply setPermissionsFromToken_normal in Hs.
  split; [reflexivity|]. split; [reflexivity|]. exists perms_token. auto.
Qed.

(** C2: on an ["ok"] acknowledgment of the [sign_in] request, once the
    promise of [signIn] has resolved the [signedIn] getter is true and the
    permission set is what [jwtDecode] gives for the token the
    acknowledgment carries; and the promise does resolve whenever that token
    decodes to a permission set. *)
Theorem signIn_ok_acknowledged (token payload : jsval) (p : promise)
    (now : Z) (this : HubChannel) :
  requested_by (signIn token) p ->
  (forall v after t,
     acknowledge "ok" payload p now this = (Normal (Settled (Resolved v)), after, t) ->
     signedIn after = true /\
     exists perms_token,
       get_prop payload "perms_token" = Some perms_token /\
       jwtDecode perms_token = Some (_permissions after)) /\
  (forall perms_token perms exp,
     get_prop payload "perms_token" = Some perms_token ->
     jwtDecode perms_token = Some perms ->
     get_prop perms "exp" = Some exp ->
     acknowledge "ok" payload p now this =
       (Normal (Settled (Resolved VUndefined)),
        set_signedIn true (set_permissions perms this),
        [DispatchEvent "permissions_updated"; SetTimeout (nextRefresh exp now)])).
Proof.
  intros Hp. apply signIn_requested in Hp. subst p. split.
  - intros v after t. unfold acknowledge. simpl. run.
    destruct (signIn_ok payload now this) as [[[s|e] this1] t1] eqn:Hs; simpl; [|discriminate].
    intros [= -> <- _]. apply signIn_ok_normal in Hs. tauto.
  - intros perms_token perms exp Hk Hd He. unfold acknowledge. simpl. run.
    rewrite (signIn_ok_decoded payload perms_token perms exp now this Hk Hd He).
    reflexivity.
Qed.

(** C3: on an ["error"] acknowledgment of the [sign_in] request, the promise
    of [signIn] resolves, with [signedIn] and the rest of the object left as
    they were, when the reason is ["invalid_token"], and rejects for every
    other reason; an ["error"] acknowledgment of the request of [signOut],
    [getHost], [pin] or [fetchPermissions] always rejects the promise, with
    the payload of the acknowledgment. *)
Theorem error_acknowledged (err : jsval) (now : Z) (this : HubChannel) :
  (forall token p reason,
     requested_by (signIn token) p ->
     get_prop err "reason" = Some reason ->
     (reason = VStr "invalid_token" ->
      acknowledge "error" err p now this =
        (Normal (Settled (Resolved VUndefined)), this, [ConsoleWarn "sign in failed"])) /\
     (reason <> VStr "invalid_token" ->
      acknowledge "error" err p now this =
        (Normal (Settled (Rejected (Reason VUndefined))), this,
         [ConsoleError "sign in failed"]))) /\
  (forall p,
     requested_by signOut p \/ requested_by getHost p \/
     (exists id gltfNode fileId fileAccessToken promotionToken,
        requested_by (pin id gltfNode fileId fileAccessToken promotionToken) p) \/
     requested_by fetchPermissions p ->
     acknowledge "error" err p now this = (Normal (Settled (Rejected (Reason err))), this, [])).
Proof.
  split.
  - intros token p reason Hp Hr. apply signIn_requested in Hp. subst p.
    unfold acknowledge, signIn_error. simpl. run. rewrite Hr. simpl. split.
    + intros ->. reflexivity.
    + intros Hne. destruct (strict_eq_str reason "invalid_token") eqn:Heq; [|reflexivity].
      exfalso. apply Hne. destruct reason; simpl in Heq; try discriminate.
      apply String.eqb_eq in Heq. congruence.
  - intros p [Hp | [Hp | [(id & g & f & a & pt & Hp) | Hp]]].
    + apply signOut_requested in Hp. subst p. reflexivity.
    + apply getHost_requested in Hp. subst p. reflexivity.
    + apply pin_requested in Hp. subst p. reflexivity.
    + apply fetchPermissions_requested in Hp. subst p. reflexivity.
Qed.

(** C6: on an ["ok"] acknowledgment of the [sign_out] request, [signOut]
    replaces the permission set with the empty mapping, sets [signedIn] to
    false, dispatches [permissions_updated] and resolves its promise; on an
    ["error"] acknowledgment the permission set and [signedIn] are left as
    they were. *)
Theorem signOut_acknowledged (payload err : jsval) (p : promise)
    (now : Z) (this : HubChannel) :
  requested_by signOut p ->
  (let ok := acknowledge "ok" payload p now this in
   result_of ok = Normal (Settled (Resolved VUndefined)) /\
   _permissions (object_of ok) = VObj ∅ /\
   signedIn (object_of ok) = false /\
   trace_of ok = [DispatchEvent "permissions_updated"] /\
   object_of ok = set_signedIn false (set_permissions (VObj ∅) this)) /\
  (let error := acknowledge "error" err p now this in
   _permissions (object_of error) = _permissions this /\
   signedIn (object_of error) = signedIn this /\
   error = (Normal (Settled (Rejected (Reason err))), this, [])).
Proof.
  intros Hp. apply signOut_requested in Hp. subst p. repeat split.
Qed.
End Acknowledgments.

Lemma signIn_ok_acknowledged_witness :
  let token := VStr "credentials" in
  let payload := VObj {[ "perms_token" := VStr "header.payload.signature" ]} in
  let p := Pending [("ok", signIn_ok (R := Sample.runtime)); ("error", signIn_error)] in
  requested_by (signIn (R := Sample.runtime) token) p /\
  get_prop payload "perms_token" = Some (VStr "header.payload.signature") /\
  jwtDecode (Runtime := Sample.runtime) (VStr "header.payload.signature") = Some Sample.perms /\
  get_prop Sample.perms "exp" = Some (VNum (Some 1600000000)) /\
  acknowledge "ok" payload p Sample.noon Sample.attached =
    (Normal (Settled (Resolved VUndefined)),
     set_signedIn true (set_permissions Sample.perms Sample.attached),
     [DispatchEvent "permissions_updated";
      SetTimeout (nextRefresh (R := Sample.runtime) (VNum (Some 1600000000)) Sample.noon)]).
Proof.
  intros token payload p.
  assert (Hp : requested_by (signIn (R := Sample.runtime) token) p).
  { exists Sample.noon, Sample.attached. split; [eexists; reflexivity | reflexivity]. }
  split; [exact Hp|]. split; [reflexivity|]. split; [reflexivity|]. split; [reflexivity|].
  destruct (signIn_ok_acknowledged (R := Sample.runtime) token payload p
              Sample.noon Sample.attached Hp) as [_ Hresolves].
  apply (Hresolves (VStr "header.payload.signature") Sample.perms (VNum (Some 1600000000)));
    reflexivity.
Defined.

(** Signing in on a fresh object, from the request to the acknowledgment. *)
Example signIn_round_trip :
  let p := Pending [("ok", signIn_ok (R := Sample.runtime)); ("error", signIn_error)] in
  signIn (R := Sample.runtime) (VStr "credentials") Sample.noon Sample.attached =
    (Normal p, Sample.attached,
     [Push "sign_in" (VObj {[ "token" := VStr "credentials";
                              "creator_assignment_token" := VUndefined ]})]) /\
  signedIn Sample.attached = false /\
  let after :=
    object_of (acknowledge "ok" (VObj {[ "perms_token" := VStr "header.payload.signature" ]})
                 p Sample.noon Sample.attached) in
  signedIn after = true /\ _permissions after = Sample.perms.
Proof. repeat split. Qed.

(** A token the decoder refuses: the callback throws, the promise stays
    pending and the object is not signed in. *)
Example signIn_undecodable_token :
  let p := Pending [("ok", signIn_ok (R := Sample.runtime)); ("error", signIn_error)] in
  acknowledge "ok" (VObj {[ "perms_token" := VStr "garbage" ]}) p Sample.noon Sample.attached =
    (Throw InvalidTokenError, Sample.attached, []).
Proof. reflexivity. Qed.

Lemma error_acknowledged_witness :
  let invalid := VObj {[ "reason" := VStr "invalid_token" ]} in
  let denied := VObj {[ "reason" := VStr "denied" ]} in
  let p := Pending [("ok", signIn_ok (R := Sample.runtime)); ("error", signIn_error)] in
  let q := Pending [("ok", fetchPermissions_ok (R := Sample.runtime)); ("error", reject)] in
  requested_by (signIn (R := Sample.runtime) (VStr "credentials")) p /\
  requested_by (fetchPermissions (R := Sample.runtime)) q /\
  get_prop invalid "reason" = Some (VStr "invalid_token") /\
  get_prop denied "reason" = Some (VStr "denied") /\
  VStr "denied" <> VStr "invalid_token" /\
  acknowledge "error" invalid p Sample.noon Sample.attached =
    (Normal (Settled (Resolved VUndefined)), Sample.attached,
     [ConsoleWarn "sign in failed"]) /\
  acknowledge "error" denied p Sample.noon Sample.attached =
    (Normal (Settled (Rejected (Reason VUndefined))), Sample.attached,
     [ConsoleError "sign in failed"]) /\
  acknowledge "error" denied q Sample.noon Sample.attached =
    (Normal (Settled (Rejected (Reason denied))), Sample.attached, []).
Proof.
  intros invalid denied p q.
  assert (Hp : requested_by (signIn (R := Sample.runtime) (VStr "credentials")) p).
  { exists Sample.noon, Sample.attached. split; [eexists; reflexivity | reflexivity]. }
  assert (Hq : requested_by (fetchPermissions (R := Sample.runtime)) q).
  { exists Sample.noon, Sample.attached. split; [eexists; reflexivity | reflexivity]. }
  assert (Hne : VStr "denied" <> VStr "invalid_token") by discriminate.
  split; [exact Hp|]. split; [exact Hq|]. split; [reflexivity|]. split; [reflexivity|].
  split; [exact Hne|].
  destruct (error_acknowledged (R := Sample.runtime) invalid Sample.noon Sample.attached)
    as [Hi _].
  destruct (error_acknowledged (R := Sample.runtime) denied Sample.noon Sample.attached)
    as [Hd Ho].
  split; [|split].
  - apply (proj1 (Hi (VStr "credentials") p (VStr "invalid_token") Hp eq_refl)). reflexivity.
  - apply (proj2 (Hd (VStr "credentials") p (VStr "denied") Hp eq_refl)). exact Hne.
  - apply Ho. right. right. right. exact Hq.
Defined.

Lemma signOut_acknowledged_witness :
  let p := Pending [("ok", signOut_ok); ("error", reject)] in
  let ok := acknowledge "ok" (VObj ∅) p Sample.later Sample.member in
  requested_by signOut p /\
  signedIn Sample.member = true /\
  _permissions Sample.member = Sample.perms /\
  result_of ok = Normal (Settled (Resolved VUndefined)) /\
  _permissions (object_of ok) = VObj ∅ /\
  signedIn (object_of ok) = false /\
  trace_of ok = [DispatchEvent "permissions_updated"].
Proof.
  intros p ok.
  assert (Hp : requested_by signOut p).
  { exists Sample.noon, Sample.member. split; [eexists; reflexivity | reflexivity]. }
  split; [exact Hp|]. split; [reflexivity|]. split; [reflexivity|].
  destruct (signOut_acknowledged (VObj ∅) VUndefined p Sample.later Sample.member Hp)
    as [(Hr & Hperm & Hs & Ht & _) _].
  split; [exact Hr|]. split; [exact Hperm|]. split; [exact Hs|]. exact Ht.
Defined.

(** * Further properties of the module *)

(** ** Asking for a permission *)

Section Asking.
Context `{R : Runtime}.

Lemma can_readable (k : string) (this : HubChannel) (b : bool) :
  cached_flag k this = Some b -> ToBoolean (can k this) = b.
Proof.
  unfold cached_flag, can. destruct (ToBoolean (_permissions this)) eqn:Ht.
  - destruct (get_prop (_permissions this) k) as [v|]; simpl; [|discriminate].
    intros [= <-]. reflexivity.
  - intros H. rewrite Ht.
    destruct (_permissions this); simpl in H, Ht; try discriminate;
      injection H as <-; reflexivity.
Qed.

Lemma gated_refused (flag event : string) (payload : jsval) (call : M jsval)
    (now : Z) (this : HubChannel) :
  gated flag event payload call ->
  cached_flag flag this = Some false ->
  call now this = (Normal (VStr "unauthorized"), this, []).
Proof. intros G H. specialize (G now this). rewrite H in G. exact G. Qed.

Lemma cached_flag_unreadable (k : string) (this : HubChannel) :
  cached_flag k this = None <-> _permissions this = VNull \/ _permissions this = VUndefined.
Proof.
  unfold cached_flag. destruct (_permissions this); simpl; split;
    try discriminate; try tauto; intros [H|H]; discriminate.
Qed.

Lemma gated_predicted (flag event : string) (payload : jsval) (call : M jsval) :
  gated flag event payload call -> predicted_by_can flag event payload call.
Proof.
  intros G now this. specialize (G now this).
  destruct (cached_flag flag this) as [b|] eqn:Hf.
  - pose proof (can_readable flag this b Hf) as Hc.
    assert (Hr : ~ (_permissions this = VNull \/ _permissions this = VUndefined)).
    { rewrite <- (cached_flag_unreadable flag). congruence. }
    split; [|split].
    + intros Ht [c Hch]. destruct b; [|congruence]. rewrite Hch in G. exact G.
    + intros Hfalse _ _. destruct b; [congruence|]. exact G.
    + intros Hn. contradiction.
  - pose proof (proj1 (cached_flag_unreadable flag this) Hf) as Hn.
    assert (Hcan : can flag this = _permissions this).
    { unfold can. destruct Hn as [-> | ->]; reflexivity. }
    split; [|split].
    + rewrite Hcan. destruct Hn as [-> | ->]; discriminate.
    + intros _ Hnn Hnu. destruct Hn; contradiction.
    + intros _. split; [exact Hcan | exact G].
Qed.

(** X1: what [can] answers for the flag of a gated call predicts the call:
    a truthy answer and the request is pushed, a falsy answer on a readable
    cache and the call refuses with ["unauthorized"], and on a [null] or
    [undefined] cache [can] returns the cache where the call throws. *)
Theorem can_predicts_gated_calls (name url : jsval) :
  predicted_by_can "update_hub" "update_hub" (VObj {[ "name" := name ]}) (rename name) /\
  predicted_by_can "update_hub" "update_scene" (VObj {[ "url" := url ]}) (updateScene url) /\
  predicted_by_can "close_hub" "close_hub" (VObj ∅) closeHub.
Proof.
  split; [|split]; apply gated_predicted.
  - apply rename_gated.
  - apply updateScene_gated.
  - apply closeHub_gated.
Qed.

Lemma find_first_match {A} (f : A -> bool) (l1 l2 : list A) (x : A) :
  Forall (fun y => f y = false) l1 -> f x = true ->
  List.find f (l1 ++ x :: l2) = Some x.
Proof.
  intros Hl Hx. induction Hl as [|y l1 Hy _ IH]; simpl.
  - rewrite Hx. reflexivity.
  - rewrite Hy. exact IH.
Qed.

Lemma find_no_match {A} (f : A -> bool) (l : list A) :
  Forall (fun y => f y = false) l -> List.find f l = None.
Proof.
  intros Hl. induction Hl as [|y l Hy _ IH]; simpl; [reflexivity|].
  rewrite Hy. exact IH.
Qed.

(** X2: the creator-assignment token of an object is the token of the first
    stored entry made for its hub, whatever follows that entry; it is
    [undefined] when the store has no list of entries or none for this
    hub. *)
Theorem getCreatorAssignmentToken_first_entry (this : HubChannel) :
  (creatorAssignmentTokens (store this) = None ->
   _getCreatorAssignmentToken this = VUndefined) /\
  (forall tokens,
     creatorAssignmentTokens (store this) = Some tokens ->
     Forall (fun t => entry_hubId t <> hubId this) tokens ->
     _getCreatorAssignmentToken this = VUndefined) /\
  (forall before entry after,
     creatorAssignmentTokens (store this) = Some (before ++ entry :: after) ->
     Forall (fun t => entry_hubId t <> hubId this) before ->
     entry_hubId entry = hubId this ->
     _getCreatorAssignmentToken this = creatorAssignmentToken entry).
Proof.
  unfold _getCreatorAssignmentToken. split; [|split].
  - intros ->. reflexivity.
  - intros tokens -> Hn. rewrite find_no_match; [reflexivity|].
    eapply Forall_impl; [exact Hn|]. intros t Ht. apply String.eqb_neq. exact Ht.
  - intros before entry after -> Hn He. rewrite (find_first_match _ before after entry).
    + reflexivity.
    + eapply Forall_impl; [exact Hn|]. intros t Ht. apply String.eqb_neq. exact Ht.
    + apply String.eqb_eq. exact He.
Qed.

(** X3: with a truthy creator-assignment token for its hub, an object
    answers [true] to [canOrWillIfCreator] for each of the four creator
    permissions whatever its cache holds, while the gated calls keep
    looking at the cache alone and refuse; without such a token, and for
    any other permission, [canOrWillIfCreator] is [can]. *)
Theorem creator_elevation_is_advisory (now : Z) (this : HubChannel) (name url : jsval) :
  (ToBoolean (_getCreatorAssignmentToken this) = true ->
   (forall permission, permission ∈ HUB_CREATOR_PERMISSIONS ->
      canOrWillIfCreator permission this = VBool true) /\
   (cached_flag "update_hub" this = Some false ->
      rename name now this = (Normal (VStr "unauthorized"), this, []) /\
      updateScene url now this = (Normal (VStr "unauthorized"), this, [])) /\
   (cached_flag "close_hub" this = Some false ->
      closeHub now this = (Normal (VStr "unauthorized"), this, []))) /\
  (forall permission,
     ToBoolean (_getCreatorAssignmentToken this) = false \/
     permission ∉ HUB_CREATOR_PERMISSIONS ->
     canOrWillIfCreator permission this = can permission this).
Proof.
  split.
  - intros Ht. split; [|split].
    + intros permission Hin. unfold canOrWillIfCreator. rewrite Ht.
      rewrite (bool_decide_eq_true_2 _ Hin). reflexivity.
    + intros Hf. split.
      * exact (gated_refused _ _ _ _ now this (rename_gated name) Hf).
      * exact (gated_refused _ _ _ _ now this (updateScene_gated url) Hf).
    + intros Hf. exact (gated_refused _ _ _ _ now this closeHub_gated Hf).
  - intros permission [Hf | Hn]; unfold canOrWillIfCreator.
    + rewrite Hf. reflexivity.
    + rewrite (bool_decide_eq_false_2 _ Hn), andb_false_r. reflexivity.
Qed.
End Asking.

Lemma can_predicts_gated_calls_witness :
  ToBoolean (can "update_hub" Sample.member) = true /\
  is_Some (channel Sample.member) /\
  rename (VStr "Lobby") Sample.noon Sample.member =
    (Normal VUndefined, Sample.member,
     [Push "update_hub" (VObj {[ "name" := VStr "Lobby" ]})]) /\
  ToBoolean (can "close_hub" Sample.member) = false /\
  closeHub Sample.noon Sample.member = (Normal (VStr "unauthorized"), Sample.member, []).
Proof.
  destruct (can_predicts_gated_calls (VStr "Lobby") VUndefined) as (Hr & _ & Hc).
  destruct (Hr Sample.noon Sample.member) as (Hpush & _ & _).
  destruct (Hc Sample.noon Sample.member) as (_ & Hrefuse & _).
  split; [reflexivity|]. split; [eexists; reflexivity|].
  split; [apply Hpush; [reflexivity | eexists; reflexivity]|].
  split; [reflexivity|]. apply Hrefuse; [reflexivity | discriminate | discriminate].
Defined.

Lemma getCreatorAssignmentToken_first_entry_witness :
  let before := [ {| entry_hubId := "hub0"; creatorAssignmentToken := VStr "zero" |} ] in
  let entry := {| entry_hubId := "hub1"; creatorAssignmentToken := VStr "first" |} in
  let after := [ {| entry_hubId := "hub1"; creatorAssignmentToken := VStr "second" |} ] in
  creatorAssignmentTokens (store Scenario.creator) = Some (before ++ entry :: after) /\
  Forall (fun t => entry_hubId t <> hubId Scenario.creator) before /\
  entry_hubId entry = hubId Scenario.creator /\
  _getCreatorAssignmentToken Scenario.creator = VStr "first".
Proof.
  intros before entry after.
  assert (Hb : Forall (fun t => entry_hubId t <> hubId Scenario.creator) before).
  { repeat constructor. discriminate. }
  split; [reflexivity|]. split; [exact Hb|]. split; [reflexivity|].
  destruct (getCreatorAssignmentToken_first_entry Scenario.creator) as (_ & _ & H).
  exact (H before entry after eq_refl Hb eq_refl).
Defined.

Lemma creator_elevation_is_advisory_witness :
  ToBoolean (_getCreatorAssignmentToken Scenario.creator) = true /\
  "kick_users" ∈ HUB_CREATOR_PERMISSIONS /\
  cached_flag "update_hub" Scenario.creator = Some false /\
  canOrWillIfCreator "kick_users" Scenario.creator = VBool true /\
  rename (VStr "Lobby") Sample.noon Scenario.creator =
    (Normal (VStr "unauthorized"), Scenario.creator, []).
Proof.
  assert (Hin : "kick_users" ∈ HUB_CREATOR_PERMISSIONS).
  { unfold HUB_CREATOR_PERMISSIONS. repeat constructor. }
  destruct (creator_elevation_is_advisory Sample.noon Scenario.creator
              (VStr "Lobby") VUndefined) as [H _].
  destruct (H eq_refl) as (Hall & Hupd & _).
  split; [reflexivity|]. split; [exact Hin|]. split; [reflexivity|].
  split; [exact (Hall "kick_users" Hin)|]. exact (proj1 (Hupd eq_refl)).
Defined.

(** ** A new object *)

Section Fresh.
Context `{R : Runtime}.

(** X4: a new object reports [signedIn] by the truthiness of the stored
    credentials token alone; whatever the store holds it has no permission
    yet, so every gated call refuses, it hides no session, and having no
    channel its [signIn] comes back as a promise rejected with a
    [TypeError]. *)
Theorem constructor_starts_unauthorized (st : Store) (id : string) (now : Z)
    (name url token : jsval) :
  let this := constructor st id in
  signedIn this = ToBoolean (credentials_token st) /\
  (forall sessionId, isHidden sessionId this = false) /\
  rename name now this = (Normal (VStr "unauthorized"), this, []) /\
  updateScene url now this = (Normal (VStr "unauthorized"), this, []) /\
  closeHub now this = (Normal (VStr "unauthorized"), this, []) /\
  signIn token now this = (Normal (Settled (Rejected (Uncaught TypeError))), this, []).
Proof.
  intros this. split; [reflexivity|]. split.
  - intros sessionId. apply isHidden_false. simpl. apply not_elem_of_empty.
  - repeat split.
Qed.
End Fresh.

(** ** Promises without a channel, and acknowledgments nobody waits for *)

Section Promises.
Context `{R : Runtime}.

Lemma new_Promise_detached (event : string) (payload : jsval) (recv : receivers)
    (now : Z) (this : HubChannel) :
  channel this = None ->
  new_Promise (Call.bind (channel_push event payload) (fun _ => Call.ret recv)) now this =
    (Normal (Settled (Rejected (Uncaught TypeError))), this, []).
Proof. intros H. unfold new_Promise, channel_push. run. rewrite H. reflexivity. Qed.

(** X5: the calls that return a promise never throw: without a channel
    [signIn], [signOut], [getHost], [pin], [fetchPermissions] and
    [unsubscribe] each return a promise rejected with the [TypeError] of
    the push, push nothing and leave the object as it was. *)
Theorem promise_calls_reject_detached
    (token id gltfNode fileId fileAccessToken promotionToken subscription : jsval) :
  rejects_detached (signIn token) /\
  rejects_detached signOut /\
  rejects_detached getHost /\
  rejects_detached (pin id gltfNode fileId fileAccessToken promotionToken) /\
  rejects_detached fetchPermissions /\
  rejects_detached (unsubscribe subscription).
Proof.
  repeat split; intros now this H.
  - unfold signIn, new_Promise, channel_push. run. rewrite H. reflexivity.
  - apply new_Promise_detached, H.
  - apply new_Promise_detached, H.
  - apply new_Promise_detached, H.
  - apply new_Promise_detached, H.
  - apply new_Promise_detached, H.
Qed.

Lemma unsubscribe_requested (subscription : jsval) (p : promise) :
  requested_by (unsubscribe subscription) p -> p = Pending [("ok", resolve)].
Proof.
  intros (now & this & Hc & Hp). unfold unsubscribe in Hp.
  rewrite (new_Promise_pushed _ _ _ now this Hc) in Hp.
  unfold result_of in Hp. simpl in Hp. congruence.
Qed.

Lemma acknowledge_unheard (status : string) (payload : jsval) (recv : receivers)
    (now : Z) (this : HubChannel) :
  receiver_for status recv = None ->
  acknowledge status payload (Pending recv) now this = (Normal (Pending recv), this, []).
Proof. intros H. unfold acknowledge. rewrite H. reflexivity. Qed.

Lemma receiver_for_ok_error (status : string) (f g : jsval -> M settlement) :
  status <> "ok" -> status <> "error" ->
  receiver_for status [("ok", f); ("error", g)] = None.
Proof.
  intros Hok Herr. unfold receiver_for. cbn [List.find fst].
  apply not_eq_sym, String.eqb_neq in Hok. apply not_eq_sym, String.eqb_neq in Herr.
  rewrite Hok, Herr. reflexivity.
Qed.

(** X6: an acknowledgment whose status is neither ["ok"] nor ["error"] (a
    ["timeout"], say) finds no callback on the request of [signIn],
    [signOut], [getHost], [pin] or [fetchPermissions]: the promise stays
    pending, the object is unchanged and nothing is called. *)
Theorem other_status_leaves_pending (status : string) (payload : jsval) (p : promise)
    (now : Z) (this : HubChannel) :
  status <> "ok" -> status <> "error" ->
  (exists token, requested_by (signIn token) p) \/
  requested_by signOut p \/ requested_by getHost p \/
  (exists id gltfNode fileId fileAccessToken promotionToken,
     requested_by (pin id gltfNode fileId fileAccessToken promotionToken) p) \/
  requested_by fetchPermissions p ->
  acknowledge status payload p now this = (Normal p, this, []).
Proof.
  intros Hok Herr [[token Hp] | [Hp | [Hp | [(id & g & f & a & pt & Hp) | Hp]]]].
  - apply signIn_requested in Hp. subst p.
    apply acknowledge_unheard, receiver_for_ok_error; assumption.
  - apply signOut_requested in Hp. subst p.
    apply acknowledge_unheard, receiver_for_ok_error; assumption.
  - apply getHost_requested in Hp. subst p.
    apply acknowledge_unheard, receiver_for_ok_error; assumption.
  - apply pin_requested in Hp. subst p.
    apply acknowledge_unheard, receiver_for_ok_error; assumption.
  - apply fetchPermissions_requested in Hp. subst p.
    apply acknowledge_unheard, receiver_for_ok_error; assumption.
Qed.

(** X7: the promise of [unsubscribe] can only resolve: an ["ok"]
    acknowledgment resolves it with the payload, and any other
    acknowledgment, ["error"] included, leaves it pending for good, with
    the object unchanged. *)
Theorem unsubscribe_never_rejects (subscription payload : jsval) (p : promise)
    (now : Z) (this : HubChannel) :
  requested_by (unsubscribe subscription) p ->
  acknowledge "ok" payload p now this = (Normal (Settled (Resolved payload)), this, []) /\
  (forall status, status <> "ok" ->
     acknowledge status payload p now this = (Normal p, this, [])).
Proof.
  intros Hp. apply unsubscribe_requested in Hp. subst p. split; [reflexivity|].
  intros status Hok. apply acknowledge_unheard. unfold receiver_for. cbn [List.find fst].
  apply not_eq_sym, String.eqb_neq in Hok. rewrite Hok. reflexivity.
Qed.
End Promises.

Lemma promise_calls_reject_detached_witness :
  channel Sample.fresh = None /\
  signOut Sample.noon Sample.fresh =
    (Normal (Settled (Rejected (Uncaught TypeError))), Sample.fresh, []) /\
  fetchPermissions (R := Sample.runtime) Sample.noon Sample.fresh =
    (Normal (Settled (Rejected (Uncaught TypeError))), Sample.fresh, []).
Proof.
  destruct (promise_calls_reject_detached (R := Sample.runtime)
              VUndefined VUndefined VUndefined VUndefined VUndefined VUndefined VUndefined)
    as (_ & Hout & _ & _ & Hfetch & _).
  split; [reflexivity|]. split.
  - apply Hout. reflexivity.
  - apply Hfetch. reflexivity.
Defined.

Lemma other_status_leaves_pending_witness :
  let p := Pending [("ok", signOut_ok); ("error", reject)] in
  "timeout" <> "ok" /\ "timeout" <> "error" /\ requested_by signOut p /\
  acknowledge "timeout" (VObj ∅) p Sample.later Sample.member = (Normal p, Sample.member, []).
Proof.
  intros p.
  assert (Hp : requested_by signOut p).
  { exists Sample.noon, Sample.member. split; [eexists; reflexivity | reflexivity]. }
  assert (Hok : "timeout" <> "ok") by discriminate.
  assert (Herr : "timeout" <> "error") by discriminate.
  split; [exact Hok|]. split; [exact Herr|]. split; [exact Hp|].
  apply (other_status_leaves_pending (R := Sample.runtime) "timeout" (VObj ∅) p
           Sample.later Sample.member Hok Herr).
  right. left. exact Hp.
Defined.

Lemma unsubscribe_never_rejects_witness :
  let p := Pending [("ok", resolve)] in
  let err := VObj {[ "reason" := VStr "denied" ]} in
  requested_by (unsubscribe (VStr "favorites")) p /\ "error" <> "ok" /\
  acknowledge "ok" (VObj ∅) p Sample.noon Sample.attached =
    (Normal (Settled (Resolved (VObj ∅))), Sample.attached, []) /\
  acknowledge "error" err p Sample.noon Sample.attached = (Normal p, Sample.attached, []).
Proof.
  intros p err.
  assert (Hp : requested_by (unsubscribe (VStr "favorites")) p).
  { exists Sample.noon, Sample.attached. split; [eexists; reflexivity | reflexivity]. }
  assert (Hne : "error" <> "ok") by discriminate.
  split; [exact Hp|]. split; [exact Hne|]. split.
  - exact (proj1 (unsubscribe_never_rejects (VStr "favorites") (VObj ∅) p
                    Sample.noon Sample.attached Hp)).
  - exact (proj2 (unsubscribe_never_rejects (VStr "favorites") err p
                    Sample.noon Sample.attached Hp) "error" Hne).
Defined.

(** ** Refreshing the permissions *)

Section Refresh.
Context `{R : Runtime}.

Lemma fetchPermissions_ok_decoded (res perms_token perms exp : jsval)
    (now : Z) (this : HubChannel) :
  get_prop res "perms_token" = Some perms_token ->
  jwtDecode perms_token = Some perms ->
  get_prop perms "exp" = Some exp ->
  fetchPermissions_ok res now this =
    (Normal (Resolved (VObj {[ "permsToken" := perms_token; "permissions" := perms ]})),
     set_permissions perms this,
     [DispatchEvent "permissions_updated"; SetTimeout (nextRefresh exp now)]).
Proof.
  intros Hp Hd He. unfold fetchPermissions_ok. run. rewrite Hp. simpl.
  rewrite (setPermissionsFromToken_decoded perms_token perms exp now this Hd He).
  reflexivity.
Qed.

(** X8: on an ["ok"] acknowledgment whose token decodes, the promise of
    [fetchPermissions] resolves with the token and with the permission set
    the object now holds, which is the decoded token; the refresh timer is
    set again, and [signedIn] is what it was: a refresh signs nobody in. *)
Theorem fetchPermissions_ok_acknowledged (res perms_token perms exp : jsval) (p : promise)
    (now : Z) (this : HubChannel) :
  requested_by fetchPermissions p ->
  get_prop res "perms_token" = Some perms_token ->
  jwtDecode perms_token = Some perms ->
  get_prop perms "exp" = Some exp ->
  let ok := acknowledge "ok" res p now this in
  result_of ok =
    Normal (Settled (Resolved
      (VObj {[ "permsToken" := perms_token; "permissions" := _permissions (object_of ok) ]}))) /\
  _permissions (object_of ok) = perms /\
  signedIn (object_of ok) = signedIn this /\
  _blockedSessionIds (object_of ok) = _blockedSessionIds this /\
  trace_of ok = [DispatchEvent "permissions_updated"; SetTimeout (nextRefresh exp now)].
Proof.
  intros Hp Hk Hd He. apply fetchPermissions_requested in Hp. subst p.
  unfold acknowledge. simpl. run.
  rewrite (fetchPermissions_ok_decoded res perms_token perms exp now this Hk Hd He).
  repeat split.
Qed.

(** X9: when the refresh timer fires, an ["ok"] acknowledgment of its
    request replaces the permissions, sets the next timer and only then
    dispatches [permissions-refreshed]; an ["error"] acknowledgment rejects
    the promise of the callback with nothing dispatched and no timer set,
    so no further refresh follows. *)
Theorem refresh_timer_chain (res err perms_token perms exp : jsval) (p : promise)
    (now : Z) (this : HubChannel) :
  requested_by refresh p ->
  (get_prop res "perms_token" = Some perms_token ->
   jwtDecode perms_token = Some perms ->
   get_prop perms "exp" = Some exp ->
   acknowledge_then refresh_resume "ok" res p now this =
     (Normal (Settled (Resolved VUndefined)), set_permissions perms this,
      [DispatchEvent "permissions_updated"; SetTimeout (nextRefresh exp now);
       DispatchEvent "permissions-refreshed"])) /\
  acknowledge_then refresh_resume "error" err p now this =
    (Normal (Settled (Rejected (Reason err))), this, []).
Proof.
  intros Hp. apply fetchPermissions_requested in Hp. subst p. split.
  - intros Hk Hd He. unfold acknowledge_then, acknowledge. simpl. run.
    rewrite (fetchPermissions_ok_decoded res perms_token perms exp now this Hk Hd He).
    reflexivity.
  - reflexivity.
Qed.

(** X10: an ["ok"] acknowledgment whose token the decoder refuses changes
    nothing: the callback of [signIn] and of [fetchPermissions] throws
    before anything is assigned, so the permissions and [signedIn] stay,
    no event is dispatched, no timer is set and the promise is not
    settled. *)
Theorem undecodable_token_changes_nothing (token payload perms_token : jsval) (p : promise)
    (now : Z) (this : HubChannel) :
  requested_by (signIn token) p \/ requested_by fetchPermissions p ->
  get_prop payload "perms_token" = Some perms_token ->
  jwtDecode perms_token = None ->
  acknowledge "ok" payload p now this = (Throw InvalidTokenError, this, []).
Proof.
  intros Hp Hk Hd.
  pose proof (setPermissionsFromToken_undecodable perms_token now this Hd) as Hs.
  destruct Hp as [Hp | Hp].
  - apply signIn_requested in Hp. subst p.
    unfold acknowledge, signIn_ok. simpl. run. rewrite Hk. simpl. rewrite Hs. reflexivity.
  - apply fetchPermissions_requested in Hp. subst p.
    unfold acknowledge, fetchPermissions_ok. simpl. run. rewrite Hk. simpl. rewrite Hs.
    reflexivity.
Qed.

Lemma setPermissionsFromToken_nullish (token perms : jsval) (now : Z) (this : HubChannel) :
  jwtDecode token = Some perms ->
  perms = VNull \/ perms = VUndefined ->
  setPermissionsFromToken token now this =
    (Throw TypeError, set_permissions perms this, [DispatchEvent "permissions_updated"]).
Proof.
  intros Hd Hn. unfold setPermissionsFromToken, permission. run. rewrite Hd. simpl.
  destruct Hn as [-> | ->]; reflexivity.
Qed.

(** X11: a token that decodes to [null] (or [undefined]) is stored all the
    same: on the ["ok"] acknowledgment of [signIn] the cache becomes that
    value and [permissions_updated] is dispatched, then reading the expiry
    throws, so no timer is set, [signedIn] keeps its value and the promise
    is not settled; from then on [rename], [updateScene] and [closeHub]
    throw a [TypeError] instead of refusing, while [can] returns the
    cache. *)
Theorem nullish_token_poisons_cache (token payload perms_token perms name url : jsval)
    (p : promise) (now later : Z) (this : HubChannel) :
  requested_by (signIn token) p ->
  get_prop payload "perms_token" = Some perms_token ->
  jwtDecode perms_token = Some perms ->
  perms = VNull \/ perms = VUndefined ->
  let ok := acknowledge "ok" payload p now this in
  let after := object_of ok in
  ok = (Throw TypeError, set_permissions perms this, [DispatchEvent "permissions_updated"]) /\
  signedIn after = signedIn this /\
  rename name later after = (Throw TypeError, after, []) /\
  updateScene url later after = (Throw TypeError, after, []) /\
  closeHub later after = (Throw TypeError, after, []) /\
  (forall permission, can permission after = perms).
Proof.
  intros Hp Hk Hd Hn ok after.
  apply signIn_requested in Hp. subst p.
  assert (Hok : ok =
    (Throw TypeError, set_permissions perms this, [DispatchEvent "permissions_updated"])).
  { unfold ok, acknowledge, signIn_ok. simpl. run. rewrite Hk. simpl.
    rewrite (setPermissionsFromToken_nullish perms_token perms now this Hd Hn).
    reflexivity. }
  assert (Hafter : after = set_permissions perms this).
  { unfold after. rewrite Hok. reflexivity. }
  split; [exact Hok|]. rewrite Hafter.
  assert (Hcache : _permissions (set_permissions perms this) = VNull \/
                   _permissions (set_permissions perms this) = VUndefined) by exact Hn.
  split; [reflexivity|].
  pose proof (gated_predicted _ _ _ _ (rename_gated name) later
                (set_permissions perms this)) as (_ & _ & Hr).
  pose proof (gated_predicted _ _ _ _ (updateScene_gated url) later
                (set_permissions perms this)) as (_ & _ & Hu).
  pose proof (gated_predicted _ _ _ _ closeHub_gated later
                (set_permissions perms this)) as (_ & _ & Hc).
  split; [exact (proj2 (Hr Hcache))|]. split; [exact (proj2 (Hu Hcache))|].
  split; [exact (proj2 (Hc Hcache))|].
  intros permission. unfold can. simpl. destruct Hn as [-> | ->]; reflexivity.
Qed.

(** X12: the refresh timer gets a [NaN] delay when the decoded token is an
    object without an [exp] entry, and when its [exp] puts the date one
    minute before the expiry beyond the range of dates. *)
Theorem refresh_delay_not_a_number (token : jsval) (o : gmap string jsval)
    (now : Z) (this : HubChannel) :
  jwtDecode token = Some (VObj o) ->
  (o !! "exp" = None ->
   trace_of (setPermissionsFromToken token now this) =
     [DispatchEvent "permissions_updated"; SetTimeout NaN]) /\
  (forall exp, o !! "exp" = Some (VNum (Some exp)) ->
     MAX_TIME_VALUE < Z.abs (exp * 1000 - 60000) ->
     trace_of (setPermissionsFromToken token now this) =
       [DispatchEvent "permissions_updated"; SetTimeout NaN]).
Proof.
  intros Hd. split.
  - intros He.
    rewrite (setPermissionsFromToken_decoded token (VObj o) VUndefined now this Hd).
    + reflexivity.
    + simpl. rewrite He. reflexivity.
  - intros exp He Hr.
    rewrite (setPermissionsFromToken_decoded token (VObj o) (VNum (Some exp)) now this Hd).
    + rewrite nextRefresh_number. unfold TimeClip.
      apply Z.leb_gt in Hr. rewrite Hr. reflexivity.
    + simpl. rewrite He. reflexivity.
Qed.
End Refresh.

Lemma fetchPermissions_ok_acknowledged_witness :
  let res := VObj {[ "perms_token" := VStr "header.payload.signature" ]} in
  let p := Pending [("ok", fetchPermissions_ok (R := Sample.runtime)); ("error", reject)] in
  let ok := acknowledge "ok" res p Sample.noon Sample.attached in
  requested_by (fetchPermissions (R := Sample.runtime)) p /\
  get_prop res "perms_token" = Some (VStr "header.payload.signature") /\
  jwtDecode (Runtime := Sample.runtime) (VStr "header.payload.signature") = Some Sample.perms /\
  get_prop Sample.perms "exp" = Some (VNum (Some 1600000000)) /\
  _permissions (object_of ok) = Sample.perms /\
  signedIn (object_of ok) = false.
Proof.
  intros res p ok.
  assert (Hp : requested_by (fetchPermissions (R := Sample.runtime)) p).
  { exists Sample.noon, Sample.attached. split; [eexists; reflexivity | reflexivity]. }
  split; [exact Hp|]. split; [reflexivity|]. split; [reflexivity|]. split; [reflexivity|].
  destruct (fetchPermissions_ok_acknowledged (R := Sample.runtime) res
              (VStr "header.payload.signature") Sample.perms (VNum (Some 1600000000)) p
              Sample.noon Sample.attached Hp eq_refl eq_refl eq_refl)
    as (_ & Hperms & Hsigned & _).
  split; [exact Hperms | exact Hsigned].
Defined.

Lemma refresh_timer_chain_witness :
  let res := VObj {[ "perms_token" := VStr "header.payload.signature" ]} in
  let p := Pending [("ok", fetchPermissions_ok (R := Sample.runtime)); ("error", reject)] in
  requested_by (refresh (R := Sample.runtime)) p /\
  get_prop res "perms_token" = Some (VStr "header.payload.signature") /\
  jwtDecode (Runtime := Sample.runtime) (VStr "header.payload.signature") = Some Sample.perms /\
  get_prop Sample.perms "exp" = Some (VNum (Some 1600000000)) /\
  trace_of (acknowledge_then refresh_resume "ok" res p Sample.noon Sample.member) =
    [DispatchEvent "permissions_updated"; SetTimeout (Some 1540000);
     DispatchEvent "permissions-refreshed"].
Proof.
  intros res p.
  assert (Hp : requested_by (refresh (R := Sample.runtime)) p).
  { exists Sample.noon, Sample.attached. split; [eexists; reflexivity | reflexivity]. }
  split; [exact Hp|]. split; [reflexivity|]. split; [reflexivity|]. split; [reflexivity|].
  destruct (refresh_timer_chain (R := Sample.runtime) res VUndefined
              (VStr "header.payload.signature") Sample.perms (VNum (Some 1600000000)) p
              Sample.noon Sample.member Hp) as [Hok _].
  rewrite (Hok eq_refl eq_refl eq_refl). reflexivity.
Defined.

Lemma undecodable_token_changes_nothing_witness :
  let payload := VObj {[ "perms_token" := VStr "garbage" ]} in
  let p := Pending [("ok", signIn_ok (R := Sample.runtime)); ("error", signIn_error)] in
  requested_by (signIn (R := Sample.runtime) (VStr "credentials")) p /\
  get_prop payload "perms_token" = Some (VStr "garbage") /\
  jwtDecode (Runtime := Sample.runtime) (VStr "garbage") = None /\
  acknowledge "ok" payload p Sample.noon Sample.attached =
    (Throw InvalidTokenError, Sample.attached, []).
Proof.
  intros payload p.
  assert (Hp : requested_by (signIn (R := Sample.runtime) (VStr "credentials")) p).
  { exists Sample.noon, Sample.attached. split; [eexists; reflexivity | reflexivity]. }
  split; [exact Hp|]. split; [reflexivity|]. split; [reflexivity|].
  apply (undecodable_token_changes_nothing (R := Sample.runtime) (VStr "credentials")
           payload (VStr "garbage") p Sample.noon Sample.attached (or_introl Hp));
    reflexivity.
Defined.

Lemma nullish_token_poisons_cache_witness :
  let payload := VObj {[ "perms_token" := VStr "header.null.signature" ]} in
  let p := Pending [("ok", signIn_ok (R := Scenario.runtime)); ("error", signIn_error)] in
  let after :=
    object_of (acknowledge "ok" payload p Sample.noon Sample.attached) in
  requested_by (signIn (R := Scenario.runtime) (VStr "credentials")) p /\
  get_prop payload "perms_token" = Some (VStr "header.null.signature") /\
  jwtDecode (Runtime := Scenario.runtime) (VStr "header.null.signature") = Some VNull /\
  signedIn after = false /\
  rename (VStr "Lobby") Sample.later after = (Throw TypeError, after, []) /\
  can "update_hub" after = VNull.
Proof.
  intros payload p after.
  assert (Hp : requested_by (signIn (R := Scenario.runtime) (VStr "credentials")) p).
  { exists Sample.noon, Sample.attached. split; [eexists; reflexivity | reflexivity]. }
  split; [exact Hp|]. split; [reflexivity|]. split; [reflexivity|].
  destruct (nullish_token_poisons_cache (R := Scenario.runtime) (VStr "credentials") payload
              (VStr "header.null.signature") VNull (VStr "Lobby") VUndefined p
              Sample.noon Sample.later Sample.attached Hp eq_refl eq_refl (or_introl eq_refl))
    as (_ & Hs & Hr & _ & _ & Hc).
  split; [exact Hs|]. split; [exact Hr|]. exact (Hc "update_hub").
Defined.

Lemma refresh_delay_not_a_number_witness :
  let token := VStr "header.noexp.signature" in
  jwtDecode (Runtime := Scenario.runtime) token = Some (VObj Scenario.perms_noexp) /\
  Scenario.perms_noexp !! "exp" = None /\
  trace_of (setPermissionsFromToken (R := Scenario.runtime) token Sample.noon Sample.attached) =
    [DispatchEvent "permissions_updated"; SetTimeout NaN].
Proof.
  split; [reflexivity|]. split; [reflexivity|].
  apply (refresh_delay_not_a_number (R := Scenario.runtime) (VStr "header.noexp.signature")
           Scenario.perms_noexp Sample.noon Sample.attached eq_refl).
  reflexivity.
Defined.

(** ** More on the entry-timing flags *)

Section EntryTimingMore.
Context `{R : Runtime}.

(** X13: the flags are ordered, whatever the store holds: a visit that is
    new for the month is new for the day, and one past the month window is
    past the day window. *)
Theorem new_month_is_new_day (now : Z) (this : HubChannel) :
  let flags := getEntryTimingFlags now this in
  (isNewMonthly flags = true -> isNewDaily flags = true) /\
  (isNewMonthWindow flags = true -> isNewDayWindow flags = true).
Proof.
  intros flags. subst flags.
  destruct (ToBoolean (activity_lastEnteredAt (store this))) eqn:Hs.
  - rewrite (getEntryTimingFlags_stored now this Hs). simpl. split.
    + unfold isSameDay. intros H. apply negb_true_iff in H. rewrite H. reflexivity.
    + rewrite !num_gtb_true. intros (x & y & Hx & [= <-] & Hxy).
      exists x, MS_PER_DAY. split; [exact Hx|]. split; [reflexivity|].
      unfold MS_PER_MONTH, MS_PER_DAY in *. lia.
  - rewrite (getEntryTimingFlags_first_entry now this Hs). simpl. tauto.
Qed.

(** X14: a stored timestamp that is truthy but gives an invalid date (a
    string that does not parse, say) counts as a new day and a new month
    by the calendar, and as neither by the windows. *)
Theorem invalid_stored_date_flags (now : Z) (this : HubChannel) :
  ToBoolean (activity_lastEnteredAt (store this)) = true ->
  Date_new (activity_lastEnteredAt (store this)) = NaN ->
  getEntryTimingFlags now this =
    {| isNewDaily := true; isNewMonthly := true;
       isNewDayWindow := false; isNewMonthWindow := false |}.
Proof.
  intros Hs Hd. rewrite (getEntryTimingFlags_stored now this Hs). simpl.
  rewrite Hd. reflexivity.
Qed.
End EntryTimingMore.

Lemma new_month_is_new_day_witness :
  let flags := getEntryTimingFlags (R := Sample.runtime) Sample.later Sample.member in
  isNewMonthly flags = true /\ isNewMonthWindow flags = true /\
  isNewDaily flags = true /\ isNewDayWindow flags = true.
Proof.
  intros flags.
  destruct (new_month_is_new_day (R := Sample.runtime) Sample.later Sample.member)
    as [Hc Hw].
  split; [reflexivity|]. split; [reflexivity|].
  split; [apply Hc; reflexivity | apply Hw; reflexivity].
Defined.

Lemma invalid_stored_date_flags_witness :
  let this := constructor
    {| credentials_token := VNull; activity_lastEnteredAt := VStr "yesterday";
       creatorAssignmentTokens := None |} "hub1" in
  ToBoolean (activity_lastEnteredAt (store this)) = true /\
  Date_new (R := Sample.runtime) (activity_lastEnteredAt (store this)) = NaN /\
  getEntryTimingFlags (R := Sample.runtime) Sample.noon this =
    {| isNewDaily := true; isNewMonthly := true;
       isNewDayWindow := false; isNewMonthWindow := false |}.
Proof.
  intros this. split; [reflexivity|]. split; [reflexivity|].
  apply (invalid_stored_date_flags (R := Sample.runtime) Sample.noon this); reflexivity.
Defined.

(** ** More on hidden sessions *)

Section HiddenMore.
Context `{R : Runtime}.

Lemma set_blockedSessionIds_same (this : HubChannel) :
  set_blockedSessionIds (_blockedSessionIds this) this = this.
Proof. destruct this; reflexivity. Qed.

Lemma unhide_outcome (s : string) (now : Z) (this : HubChannel) :
  object_of (unhide s now this) =
    set_blockedSessionIds (_blockedSessionIds this ∖ {[s]}) this.
Proof.
  destruct (decide (s ∈ _blockedSessionIds this)) as [Hin | Hout].
  - rewrite (unhide_hidden s now this Hin). reflexivity.
  - pose proof Hout as Hf. apply isHidden_false in Hf.
    unfold unhide. run. rewrite Hf. simpl.
    replace (_blockedSessionIds this ∖ {[s]}) with (_blockedSessionIds this).
    + symmetry. apply set_blockedSessionIds_same.
    + apply leibniz_equiv. intros x. rewrite elem_of_difference, elem_of_singleton.
      split; [|tauto]. intros Hx. split; [exact Hx|]. intros ->. contradiction.
Qed.

(** X15: hiding a session and then unhiding it gives back the object as
    it was, when the session was not hidden before; when it was, the
    earlier hiding is undone as well. *)
Theorem hide_then_unhide_restores (s : string) (now later : Z) (this : HubChannel) :
  let hidden := object_of (hide s now this) in
  let shown := object_of (unhide s later hidden) in
  trace_of (unhide s later hidden) = [AdapterUnblock s; CompleteSync s] /\
  _blockedSessionIds shown = _blockedSessionIds this ∖ {[s]} /\
  (s ∉ _blockedSessionIds this -> shown = this).
Proof.
  intros hidden shown. subst shown hidden.
  replace (object_of (hide s now this))
    with (set_blockedSessionIds ({[s]} ∪ _blockedSessionIds this) this)
    by (rewrite hide_outcome; reflexivity).
  assert (Hin : s ∈ _blockedSessionIds
            (set_blockedSessionIds ({[s]} ∪ _blockedSessionIds this) this)).
  { simpl. apply elem_of_union_l, elem_of_singleton. reflexivity. }
  rewrite (unhide_hidden s later _ Hin). unfold trace_of, object_of. simpl.
  assert (Heq : ({[s]} ∪ _blockedSessionIds this) ∖ {[s]} = _blockedSessionIds this ∖ {[s]}).
  { apply leibniz_equiv. intros x.
    rewrite !elem_of_difference, elem_of_union, elem_of_singleton. tauto. }
  split; [reflexivity|]. split; [exact Heq|].
  intros Hout. rewrite Heq. destruct this as [st id si pe bl ch]. simpl in *.
  unfold set_blockedSessionIds. simpl. f_equal.
  apply leibniz_equiv. intros x. rewrite elem_of_difference, elem_of_singleton.
  split; [tauto|]. intros Hx. split; [exact Hx|]. intros ->. contradiction.
Qed.

(** X16: [hide] and [unhide] of one session touch nothing else: every
    other session is hidden afterwards exactly when it was before, and the
    store, the hub, [signedIn], the permissions and the channel are
    unchanged. *)
Theorem hiding_is_local (s other : string) (now : Z) (this : HubChannel) :
  other <> s ->
  isHidden other (object_of (hide s now this)) = isHidden other this /\
  isHidden other (object_of (unhide s now this)) = isHidden other this /\
  same_but_hidden this (object_of (hide s now this)) /\
  same_but_hidden this (object_of (unhide s now this)).
Proof.
  intros Hne. rewrite unhide_outcome.
  replace (object_of (hide s now this))
    with (set_blockedSessionIds ({[s]} ∪ _blockedSessionIds this) this)
    by (rewrite hide_outcome; reflexivity).
  unfold isHidden. simpl. split; [|split; [|split]].
  - apply bool_decide_ext. rewrite elem_of_union, elem_of_singleton. tauto.
  - apply bool_decide_ext. rewrite elem_of_difference, elem_of_singleton. tauto.
  - repeat split.
  - repeat split.
Qed.

(** X17: hiding a hidden session again changes no state but blocks it at
    the adapter once more; unhiding a session that has just been unhidden
    does nothing at all. *)
Theorem hide_unhide_repeated (s : string) (now later : Z) (this : HubChannel) :
  let hidden := object_of (hide s now this) in
  let shown := object_of (unhide s now this) in
  hide s later hidden = (Normal VUndefined, hidden, [AdapterBlock s]) /\
  unhide s later shown = (Normal VUndefined, shown, []).
Proof.
  intros hidden shown. subst hidden shown. rewrite unhide_outcome.
  replace (object_of (hide s now this))
    with (set_blockedSessionIds ({[s]} ∪ _blockedSessionIds this) this)
    by (rewrite hide_outcome; reflexivity).
  split.
  - rewrite hide_outcome. f_equal. f_equal. unfold set_blockedSessionIds. simpl. f_equal.
    apply leibniz_equiv. intros x. rewrite !elem_of_union, elem_of_singleton. tauto.
  - assert (Hout : s ∉ _blockedSessionIds
              (set_blockedSessionIds (_blockedSessionIds this ∖ {[s]}) this)).
    { simpl. rewrite elem_of_difference, elem_of_singleton. tauto. }
    apply isHidden_false in Hout. unfold unhide. run. rewrite Hout. reflexivity.
Qed.
End HiddenMore.

Lemma hide_then_unhide_restores_witness :
  ("s2" ∉ _blockedSessionIds Sample.member) /\
  object_of (unhide "s2" Sample.later (object_of (hide "s2" Sample.noon Sample.member))) =
    Sample.member.
Proof.
  assert (H2 : "s2" ∉ _blockedSessionIds Sample.member) by (vm_compute; discriminate).
  split; [exact H2|].
  exact (proj2 (proj2 (hide_then_unhide_restores "s2" Sample.noon Sample.later
                         Sample.member)) H2).
Defined.

Lemma hiding_is_local_witness :
  "s1" <> "s2" /\
  isHidden "s1" (object_of (unhide "s2" Sample.noon Sample.member)) = true /\
  isHidden "s1" (object_of (hide "s2" Sample.noon Sample.member)) = true.
Proof.
  assert (Hne : "s1" <> "s2") by discriminate.
  destruct (hiding_is_local "s2" "s1" Sample.noon Sample.member Hne) as (Hh & Hu & _).
  split; [exact Hne|]. split.
  - rewrite Hu. vm_compute. reflexivity.
  - rewrite Hh. vm_compute. reflexivity.
Defined.

(** ** Signing in and out, then asking *)

Section Sessions.
Context `{R : Runtime}.

(** X18: after an ["ok"] acknowledgment of [sign_out] every gated call
    refuses with ["unauthorized"] and pushes nothing, whatever the object
    was allowed before; the hidden sessions and the channel are kept. *)
Theorem signOut_revokes_gated_calls (payload name url : jsval) (p : promise)
    (now later : Z) (this : HubChannel) :
  requested_by signOut p ->
  let after := object_of (acknowledge "ok" payload p now this) in
  rename name later after = (Normal (VStr "unauthorized"), after, []) /\
  updateScene url later after = (Normal (VStr "unauthorized"), after, []) /\
  closeHub later after = (Normal (VStr "unauthorized"), after, []) /\
  _blockedSessionIds after = _blockedSessionIds this /\
  channel after = channel this.
Proof.
  intros Hp. apply signOut_requested in Hp. subst p. repeat split.
Qed.

(** X19: after an ["ok"] acknowledgment of [sign_in] the gated calls
    follow the decoded token: with a truthy [update_hub] entry [rename]
    and [updateScene] push their requests, with a falsy or missing one
    they refuse, and likewise [closeHub] by the [close_hub] entry. *)
Theorem signIn_grants_by_token (token payload perms_token perms name url : jsval)
    (p : promise) (now later : Z) (this : HubChannel) :
  requested_by (signIn token) p ->
  is_Some (channel this) ->
  get_prop payload "perms_token" = Some perms_token ->
  jwtDecode perms_token = Some perms ->
  perms <> VNull -> perms <> VUndefined ->
  let after := object_of (acknowledge "ok" payload p now this) in
  _permissions after = perms /\
  match ToBoolean <$> get_prop perms "update_hub" with
  | Some true =>
      rename name later after =
        (Normal VUndefined, after, [Push "update_hub" (VObj {[ "name" := name ]})]) /\
      updateScene url later after =
        (Normal VUndefined, after, [Push "update_scene" (VObj {[ "url" := url ]})])
  | _ =>
      rename name later after = (Normal (VStr "unauthorized"), after, []) /\
      updateScene url later after = (Normal (VStr "unauthorized"), after, [])
  end /\
  match ToBoolean <$> get_prop perms "close_hub" with
  | Some true => closeHub later after = (Normal VUndefined, after, [Push "close_hub" (VObj ∅)])
  | _ => closeHub later after = (Normal (VStr "unauthorized"), after, [])
  end.
Proof.
  intros Hp [c Hc] Hk Hd Hnn Hnu after.
  assert (He : exists exp, get_prop perms "exp" = Some exp).
  { destruct perms; simpl; eauto; contradiction. }
  destruct He as [exp He].
  apply signIn_requested in Hp. subst p.
  assert (Hafter : after = set_signedIn true (set_permissions perms this)).
  { unfold after, acknowledge. simpl. run.
    rewrite (signIn_ok_decoded payload perms_token perms exp now this Hk Hd He).
    reflexivity. }
  rewrite Hafter. split; [reflexivity|].
  pose proof (rename_gated name later (set_signedIn true (set_permissions perms this))) as Gr.
  pose proof (updateScene_gated url later
                (set_signedIn true (set_permissions perms this))) as Gu.
  pose proof (closeHub_gated later (set_signedIn true (set_permissions perms this))) as Gc.
  unfold cached_flag in Gr, Gu, Gc. simpl in Gr, Gu, Gc. rewrite Hc in Gr, Gu, Gc.
  split.
  - destruct (ToBoolean <$> get_prop perms "update_hub") as [[|]|] eqn:Hf.
    + split; assumption.
    + split; assumption.
    + destruct perms; simpl in Hf; try discriminate; contradiction.
  - destruct (ToBoolean <$> get_prop perms "close_hub") as [[|]|] eqn:Hf.
    + assumption.
    + assumption.
    + destruct perms; simpl in Hf; try discriminate; contradiction.
Qed.
End Sessions.

Lemma signOut_revokes_gated_calls_witness :
  let p := Pending [("ok", signOut_ok); ("error", reject)] in
  let after := object_of (acknowledge "ok" (VObj ∅) p Sample.noon Sample.member) in
  requested_by signOut p /\
  cached_flag "update_hub" Sample.member = Some true /\
  rename (VStr "Lobby") Sample.later after = (Normal (VStr "unauthorized"), after, []) /\
  isHidden "s1" after = true.
Proof.
  intros p after.
  assert (Hp : requested_by signOut p).
  { exists Sample.noon, Sample.member. split; [eexists; reflexivity | reflexivity]. }
  destruct (signOut_revokes_gated_calls (VObj ∅) (VStr "Lobby")
              VUndefined p Sample.noon Sample.later Sample.member Hp)
    as (Hr & _ & _ & Hb & _).
  split; [exact Hp|]. split; [reflexivity|]. split; [exact Hr|].
  unfold isHidden. fold after in Hb. rewrite Hb. vm_compute. reflexivity.
Defined.

Lemma signIn_grants_by_token_witness :
  let payload := VObj {[ "perms_token" := VStr "header.payload.signature" ]} in
  let p := Pending [("ok", signIn_ok (R := Sample.runtime)); ("error", signIn_error)] in
  let after := object_of (acknowledge "ok" payload p Sample.noon Sample.attached) in
  requested_by (signIn (R := Sample.runtime) (VStr "credentials")) p /\
  is_Some (channel Sample.attached) /\
  get_prop payload "perms_token" = Some (VStr "header.payload.signature") /\
  jwtDecode (Runtime := Sample.runtime) (VStr "header.payload.signature") = Some Sample.perms /\
  rename (VStr "Lobby") Sample.later after =
    (Normal VUndefined, after, [Push "update_hub" (VObj {[ "name" := VStr "Lobby" ]})]) /\
  closeHub Sample.later after = (Normal (VStr "unauthorized"), after, []).
Proof.
  intros payload p after.
  assert (Hp : requested_by (signIn (R := Sample.runtime) (VStr "credentials")) p).
  { exists Sample.noon, Sample.attached. split; [eexists; reflexivity | reflexivity]. }
  assert (Hc : is_Some (channel Sample.attached)) by (eexists; reflexivity).
  destruct (signIn_grants_by_token (R := Sample.runtime) (VStr "credentials") payload
              (VStr "header.payload.signature") Sample.perms (VStr "Lobby") VUndefined p
              Sample.noon Sample.later Sample.attached Hp Hc eq_refl eq_refl)
    as (_ & Hu & Hcl); [discriminate | discriminate |].
  split; [exact Hp|]. split; [exact Hc|]. split; [reflexivity|]. split; [reflexivity|].
  split; [exact (proj1 Hu) | exact Hcl].
Defined.

(** ** Calls that only push *)

Section Pushing.
Context `{R : Runtime}.

Lemma channel_push_detached (event : string) (payload : jsval) (now : Z) (this : HubChannel) :
  channel this = None ->
  channel_push event payload now this = (Throw TypeError, this, []).
Proof. intros H. unfold channel_push. run. rewrite H. reflexivity. Qed.

Lemma push_then_pushes {A} (event : string) (payload : jsval) (a : A) :
  pushes event payload (Call.bind (channel_push event payload) (fun _ => Call.ret a)).
Proof.
  intros now this. destruct (channel this) as [c|] eqn:Hc.
  - unfold Call.bind.
    rewrite (channel_push_attached event payload now this (ex_intro _ c Hc)).
    split; [reflexivity|]. exists a. reflexivity.
  - unfold Call.bind. rewrite (channel_push_detached event payload now this Hc).
    reflexivity.
Qed.

Lemma push_then_keeps {A} (event : string) (payload : jsval) (a : A) :
  keeps_object (Call.bind (channel_push event payload) (fun _ => Call.ret a)).
Proof.
  intros now this. unfold channel_push. run.
  destruct (channel this); reflexivity.
Qed.

Lemma gated_keeps (flag event : string) (payload : jsval) (call : M jsval) :
  gated flag event payload call -> keeps_object call.
Proof.
  intros G now this. specialize (G now this).
  destruct (cached_flag flag this) as [[|]|]; [destruct (channel this)| |];
    rewrite G; reflexivity.
Qed.

Lemma new_Promise_keeps (event : string) (payload : jsval) (recv : receivers) :
  keeps_object
    (new_Promise (Call.bind (channel_push event payload) (fun _ => Call.ret recv))).
Proof.
  intros now this. unfold new_Promise, channel_push. run.
  destruct (channel this); reflexivity.
Qed.

(** X20: none of the calls that push a request changes the object, whether
    it pushes, refuses, warns, throws or returns a promise: [rename],
    [updateScene], [closeHub], [subscribe], [allowNAFTraffic],
    [sendMessage], [unpin], [mute], [requestSupport], [favorite],
    [unfavorite], [sendObjectSpawnedEvent], [sendEntryEvent], [signIn],
    [signOut], [getHost], [pin], [fetchPermissions] and [unsubscribe].  The
    object changes only on acknowledgments and in [hide] and [unhide]. *)
Theorem requests_keep_object (a b c d e : jsval) (sessionId : string) (env : Browser) :
  keeps_object (rename a) /\ keeps_object (updateScene a) /\ keeps_object closeHub /\
  keeps_object (subscribe a) /\ keeps_object (allowNAFTraffic a) /\
  keeps_object (sendMessage a b) /\ keeps_object (unpin a b) /\
  keeps_object (mute sessionId) /\ keeps_object requestSupport /\
  keeps_object favorite /\ keeps_object unfavorite /\
  keeps_object (sendObjectSpawnedEvent a) /\ keeps_object (sendEntryEvent env) /\
  keeps_object (signIn a) /\ keeps_object signOut /\ keeps_object getHost /\
  keeps_object (pin a b c d e) /\ keeps_object fetchPermissions /\
  keeps_object (unsubscribe a).
Proof.
  repeat split.
  - exact (gated_keeps _ _ _ _ (rename_gated a)).
  - exact (gated_keeps _ _ _ _ (updateScene_gated a)).
  - exact (gated_keeps _ _ _ _ closeHub_gated).
  - apply push_then_keeps.
  - apply push_then_keeps.
  - intros now this. unfold sendMessage. destruct (ToBoolean a); simpl.
    + apply push_then_keeps.
    + reflexivity.
  - apply push_then_keeps.
  - apply push_then_keeps.
  - apply push_then_keeps.
  - apply push_then_keeps.
  - apply push_then_keeps.
  - intros now this. unfold sendObjectSpawnedEvent, channel_push. run.
    destruct (channel this) eqn:Hc; simpl; [rewrite Hc|]; reflexivity.
  - intros now this. unfold sendEntryEvent, sendEntryEvent_push, channel_push. run.
    destruct (channel this) eqn:Hc; simpl; [|reflexivity].
    destruct (getVRDisplays env); simpl; [reflexivity|]. rewrite Hc. reflexivity.
  - intros now this. unfold signIn, new_Promise, channel_push. run.
    destruct (channel this); reflexivity.
  - apply new_Promise_keeps.
  - apply new_Promise_keeps.
  - apply new_Promise_keeps.
  - apply new_Promise_keeps.
  - apply new_Promise_keeps.
Qed.

(** X21: without a channel the two entry points that check for one,
    [sendObjectSpawnedEvent] and [sendEntryEvent], only warn on the
    console and return; [subscribe], [allowNAFTraffic], [unpin], [mute],
    [requestSupport], [favorite] and [unfavorite] do not check, and throw
    a [TypeError].  With a channel each of these pushes exactly its one
    request. *)
Theorem unguarded_pushes (a b : jsval) (sessionId : string) (env : Browser)
    (now : Z) (this : HubChannel) :
  (channel this = None ->
   sendObjectSpawnedEvent a now this =
     (Normal VUndefined, this,
      [ConsoleWarn "No phoenix channel initialized before object spawn."]) /\
   sendEntryEvent env now this =
     (Normal (Completed VUndefined), this,
      [ConsoleWarn "No phoenix channel initialized before room entry."])) /\
  (is_Some (channel this) ->
   sendObjectSpawnedEvent a now this =
     (Normal VUndefined, this,
      [Push "events:object_spawned" (VObj {[ "object_type" := a ]})])) /\
  pushes "subscribe" (VObj {[ "subscription" := a ]}) (subscribe a) /\
  pushes (if ToBoolean a then "unblock_naf" else "block_naf") (VObj ∅) (allowNAFTraffic a) /\
  pushes "unpin"
    (VObj (if ToBoolean b then {[ "file_id" := b; "id" := a ]} else {[ "id" := a ]}))
    (unpin a b) /\
  pushes "mute" (VObj {[ "session_id" := VStr sessionId ]}) (mute sessionId) /\
  pushes "events:request_support" (VObj ∅) requestSupport /\
  pushes "favorite" (VObj ∅) favorite /\
  pushes "unfavorite" (VObj ∅) unfavorite.
Proof.
  split; [|split].
  - intros Hc. unfold sendObjectSpawnedEvent, sendEntryEvent. run. rewrite Hc.
    split; reflexivity.
  - intros [c Hc]. unfold sendObjectSpawnedEvent, channel_push. run. rewrite Hc. simpl.
    rewrite Hc. reflexivity.
  - repeat split; apply push_then_pushes.
Qed.
End Pushing.

Lemma unguarded_pushes_witness :
  channel Sample.fresh = None /\ is_Some (channel Sample.attached) /\
  sendEntryEvent (R := Sample.runtime) Scenario.browser Sample.noon Sample.fresh =
    (Normal (Completed VUndefined), Sample.fresh,
     [ConsoleWarn "No phoenix channel initialized before room entry."]) /\
  sendObjectSpawnedEvent (VStr "camera") Sample.noon Sample.attached =
    (Normal VUndefined, Sample.attached,
     [Push "events:object_spawned" (VObj {[ "object_type" := VStr "camera" ]})]) /\
  mute "s1" Sample.noon Sample.fresh = (Throw TypeError, Sample.fresh, []).
Proof.
  assert (Hc : is_Some (channel Sample.attached)) by (eexists; reflexivity).
  destruct (unguarded_pushes (R := Sample.runtime) (VStr "camera") VUndefined "s1"
              Scenario.browser Sample.noon Sample.fresh)
    as (Hwarn & _ & _ & _ & _ & Hmute & _).
  destruct (unguarded_pushes (R := Sample.runtime) (VStr "camera") VUndefined "s1"
              Scenario.browser Sample.noon Sample.attached)
    as (_ & Hpush & _).
  split; [reflexivity|]. split; [exact Hc|].
  split; [exact (proj2 (Hwarn eq_refl))|]. split; [exact (Hpush Hc)|].
  exact (Hmute Sample.noon Sample.fresh).
Defined.

Section Payloads.
Context `{R : Runtime}.

(** X22: [sendMessage] with a falsy body (an empty string, say) sends
    nothing and does not even need a channel; with a body, an [undefined]
    type is sent as ["chat"] and any other type, [null] included, is sent
    as it is. *)
Theorem sendMessage_body_and_type (body type : jsval) (now : Z) (this : HubChannel) :
  (ToBoolean body = false ->
   sendMessage body type now this = (Normal VUndefined, this, [])) /\
  (ToBoolean body = true -> is_Some (channel this) ->
   sendMessage body VUndefined now this =
     (Normal VUndefined, this,
      [Push "message" (VObj {[ "body" := body; "type" := VStr "chat" ]})]) /\
   (type <> VUndefined ->
    sendMessage body type now this =
      (Normal VUndefined, this,
       [Push "message" (VObj {[ "body" := body; "type" := type ]})]))).
Proof.
  split.
  - intros Hb. unfold sendMessage. rewrite Hb. reflexivity.
  - intros Hb Hc. unfold sendMessage. rewrite Hb. simpl. unfold Call.bind.
    split.
    + rewrite (channel_push_attached _ _ now this Hc). reflexivity.
    + intros Ht. destruct type; try contradiction;
        rewrite (channel_push_attached _ _ now this Hc); reflexivity.
Qed.

(** X23: the [pin] request always carries [id] and [gltf_node]; it carries
    [file_id], [file_access_token] and [promotion_token] when both the
    file id and the promotion token are truthy, and none of the three
    otherwise, so an access token given without a promotion token is not
    sent. *)
Theorem pin_payload (id gltfNode fileId fileAccessToken promotionToken : jsval)
    (now : Z) (this : HubChannel) :
  is_Some (channel this) ->
  exists payload : gmap string jsval,
    pin id gltfNode fileId fileAccessToken promotionToken now this =
      (Normal (Pending [("ok", resolve); ("error", reject)]), this,
       [Push "pin" (VObj payload)]) /\
    payload !! "id" = Some id /\ payload !! "gltf_node" = Some gltfNode /\
    if ToBoolean fileId && ToBoolean promotionToken
    then payload !! "file_id" = Some fileId /\
         payload !! "file_access_token" = Some fileAccessToken /\
         payload !! "promotion_token" = Some promotionToken
    else payload !! "file_id" = None /\
         payload !! "file_access_token" = None /\
         payload !! "promotion_token" = None.
Proof.
  intros Hc. unfold pin.
  destruct (ToBoolean fileId && ToBoolean promotionToken); eexists;
    (split; [apply (new_Promise_pushed _ _ _ now this Hc)|]);
    repeat split; by simplify_map_eq.
Qed.

Lemma sendEntryEvent_push_attached (env : Browser) (entryDisplayType : jsval)
    (now : Z) (this : HubChannel) :
  is_Some (channel this) ->
  entry_event_pushed env now this entryDisplayType
    (sendEntryEvent_push env entryDisplayType now this).
Proof.
  intros [c Hc]. eexists. split.
  - unfold sendEntryEvent_push, channel_push. run. rewrite Hc. reflexivity.
  - destruct (initialOccupants env); repeat split; by simplify_map_eq.
Qed.

(** X24: on an attached channel the entry event carries the four flags of
    [getEntryTimingFlags] as computed when the event is pushed, the number
    of initial occupants (0 without a publisher), the user agent and a
    display type.  Where the browser has no [getVRDisplays] the event is
    pushed at once with display type ["Screen"]; where it has, nothing is
    pushed before the displays are known, and the display type is then the
    name of the first presenting display, ["Screen"] if none presents. *)
Theorem sendEntryEvent_payload (env : Browser) (now later : Z) (this after : HubChannel) :
  is_Some (channel this) -> is_Some (channel after) ->
  match getVRDisplays env with
  | None =>
      exists o, entry_event_pushed env now this (VStr "Screen") o /\
        sendEntryEvent env now this = (Normal (Completed VUndefined), this, trace_of o)
  | Some displays =>
      exists resume,
        sendEntryEvent env now this = (Normal (Awaiting resume), this, []) /\
        entry_event_pushed env later after
          (from_option displayName (VStr "Screen") (List.find isPresenting displays))
          (resume later after)
  end.
Proof.
  intros Hc Hc'. destruct (getVRDisplays env) as [displays|] eqn:Hd.
  - eexists. split.
    + unfold sendEntryEvent. run. destruct Hc as [c Hc]. rewrite Hc, Hd. reflexivity.
    + pose proof (sendEntryEvent_push_attached env
                    (from_option displayName (VStr "Screen")
                       (List.find isPresenting displays))
                    later after Hc') as H.
      destruct (List.find isPresenting displays); exact H.
  - pose proof (sendEntryEvent_push_attached env (VStr "Screen") now this Hc) as H.
    eexists. split; [exact H|].
    destruct H as (entryEvent & Heq & _).
    unfold sendEntryEvent. run. destruct Hc as [c Hc]. rewrite Hc, Hd.
    rewrite Heq. reflexivity.
Qed.
End Payloads.

Lemma sendMessage_body_and_type_witness :
  ToBoolean (VStr "") = false /\ ToBoolean (VStr "hello") = true /\
  is_Some (channel Sample.attached) /\ VNull <> VUndefined /\
  sendMessage (VStr "") (VStr "chat") Sample.noon Sample.fresh =
    (Normal VUndefined, Sample.fresh, []) /\
  sendMessage (VStr "hello") VUndefined Sample.noon Sample.attached =
    (Normal VUndefined, Sample.attached,
     [Push "message" (VObj {[ "body" := VStr "hello"; "type" := VStr "chat" ]})]) /\
  sendMessage (VStr "hello") VNull Sample.noon Sample.attached =
    (Normal VUndefined, Sample.attached,
     [Push "message" (VObj {[ "body" := VStr "hello"; "type" := VNull ]})]).
Proof.
  assert (Hc : is_Some (channel Sample.attached)) by (eexists; reflexivity).
  assert (Hn : VNull <> VUndefined) by discriminate.
  destruct (sendMessage_body_and_type (VStr "") (VStr "chat") Sample.noon Sample.fresh)
    as [Hempty _].
  destruct (sendMessage_body_and_type (VStr "hello") VNull Sample.noon Sample.attached)
    as [_ Hsent].
  destruct (Hsent eq_refl Hc) as [Hchat Hnull].
  split; [reflexivity|]. split; [reflexivity|]. split; [exact Hc|]. split; [exact Hn|].
  split; [exact (Hempty eq_refl)|]. split; [exact Hchat | exact (Hnull Hn)].
Defined.

Lemma pin_payload_witness :
  is_Some (channel Sample.attached) /\
  exists payload : gmap string jsval,
    trace_of (pin (VStr "obj1") (VStr "node") (VStr "file1") (VStr "access") VUndefined
                Sample.noon Sample.attached) = [Push "pin" (VObj payload)] /\
    payload !! "id" = Some (VStr "obj1") /\
    payload !! "file_access_token" = None.
Proof.
  assert (Hc : is_Some (channel Sample.attached)) by (eexists; reflexivity).
  split; [exact Hc|].
  destruct (pin_payload (VStr "obj1") (VStr "node") (VStr "file1") (VStr "access") VUndefined
              Sample.noon Sample.attached Hc) as (payload & Heq & Hid & _ & Hfile).
  exists payload. rewrite Heq. split; [reflexivity|]. split; [exact Hid|].
  exact (proj1 (proj2 Hfile)).
Defined.

Lemma sendEntryEvent_payload_witness :
  is_Some (channel Sample.attached) /\ is_Some (channel Sample.member) /\
  (exists o,
     entry_event_pushed (R := Sample.runtime) Scenario.desktop Sample.noon Sample.attached
       (VStr "Screen") o /\
     sendEntryEvent (R := Sample.runtime) Scenario.desktop Sample.noon Sample.attached =
       (Normal (Completed VUndefined), Sample.attached, trace_of o)) /\
  (exists resume,
     sendEntryEvent (R := Sample.runtime) Scenario.browser Sample.noon Sample.attached =
       (Normal (Awaiting resume), Sample.attached, []) /\
     entry_event_pushed (R := Sample.runtime) Scenario.browser Sample.later Sample.member
       (VStr "Headset") (resume Sample.later Sample.member)).
Proof.
  assert (Ha : is_Some (channel Sample.attached)) by (eexists; reflexivity).
  assert (Hm : is_Some (channel Sample.member)) by (eexists; reflexivity).
  split; [exact Ha|]. split; [exact Hm|]. split.
  - exact (sendEntryEvent_payload (R := Sample.runtime) Scenario.desktop
             Sample.noon Sample.later Sample.attached Sample.member Ha Hm).
  - exact (sendEntryEvent_payload (R := Sample.runtime) Scenario.browser
             Sample.noon Sample.later Sample.attached Sample.member Ha Hm).
Defined.

(** The entry event of a headset user one month after the last visit. *)
Example entry_event_headset :
  sendEntryEvent_push (R := Sample.runtime) Scenario.browser (VStr "Headset")
    Sample.later Sample.member =
    (Normal VUndefined, Sample.member,
     [Push "events:entered"
        (VObj {[ "isNewDaily" := VBool true; "isNewMonthly" := VBool true;
                 "isNewDayWindow" := VBool true; "isNewMonthWindow" := VBool true;
                 "initialOccupantCount" := VNum (Some 2);
                 "entryDisplayType" := VStr "Headset";
                 "userAgent" := VStr "Mozilla/5.0" ]})]).
Proof. reflexivity. Qed.

Section Host.
Context `{R : Runtime}.

(** X25: on an ["ok"] acknowledgment the promise of [getHost] resolves
    with the [host] entry of the payload, and with [undefined] when the
    payload has none; a payload that is [null] or [undefined] makes the
    callback throw, which leaves the promise pending.  The object is
    untouched in each case. *)
Theorem getHost_ok_acknowledged (p : promise) (now : Z) (this : HubChannel) :
  requested_by getHost p ->
  (forall (res : gmap string jsval),
     acknowledge "ok" (VObj res) p now this =
       (Normal (Settled (Resolved (default VUndefined (res !! "host")))), this, [])) /\
  (forall res, res = VNull \/ res = VUndefined ->
     acknowledge "ok" res p now this = (Throw TypeError, this, [])).
Proof.
  intros Hp. apply getHost_requested in Hp. subst p. split.
  - intros res. reflexivity.
  - intros res [-> | ->]; reflexivity.
Qed.
End Host.

Lemma getHost_ok_acknowledged_witness :
  let p := Pending [("ok", getHost_ok); ("error", reject)] in
  requested_by getHost p /\
  acknowledge "ok" (VObj {[ "host" := VStr "host.example.org" ]}) p Sample.noon Sample.attached =
    (Normal (Settled (Resolved (VStr "host.example.org"))), Sample.attached, []) /\
  acknowledge "ok" (VObj ∅) p Sample.noon Sample.attached =
    (Normal (Settled (Resolved VUndefined)), Sample.attached, []).
Proof.
  intros p.
  assert (Hp : requested_by getHost p).
  { exists Sample.noon, Sample.attached. split; [eexists; reflexivity | reflexivity]. }
  destruct (getHost_ok_acknowledged p Sample.noon Sample.attached Hp) as [Hok _].
  split; [exact Hp|]. split.
  - exact (Hok {[ "host" := VStr "host.example.org" ]}).
  - exact (Hok ∅).
Defined.

Section Attaching.
Context `{R : Runtime}.

(** X26: once [setPhoenixChannel] has attached a channel to a new object,
    [signIn] pushes one [sign_in] request that carries the credential
    token together with the creator-assignment token stored for the hub
    ([undefined] when there is none), and returns a pending promise;
    neither call changes [signedIn], which only the acknowledgment sets. *)
Theorem signIn_after_attaching (st : Store) (id topic : string) (token : jsval)
    (now later : Z) :
  let attached := object_of (setPhoenixChannel topic now (constructor st id)) in
  attached = set_channel (Some topic) (constructor st id) /\
  signIn token later attached =
    (Normal (Pending [("ok", signIn_ok); ("error", signIn_error)]), attached,
     [Push "sign_in"
        (VObj {[ "token" := token;
                 "creator_assignment_token" :=
                   _getCreatorAssignmentToken (constructor st id) ]})]) /\
  signedIn attached = ToBoolean (credentials_token st).
Proof.
  intros attached. subst attached. split; [reflexivity|]. split; [|reflexivity].
  replace (object_of (setPhoenixChannel topic now (constructor st id)))
    with (set_channel (Some topic) (constructor st id)) by reflexivity.
  rewrite signIn_pushed; [reflexivity|]. eexists. reflexivity.
Qed.
End Attaching.

Example signIn_sends_first_creator_token :
  trace_of (signIn (R := Sample.runtime) (VStr "credentials") Sample.noon
              (set_channel (Some "hub:hub1") Scenario.creator)) =
    [Push "sign_in" (VObj {[ "token" := VStr "credentials";
                             "creator_assignment_token" := VStr "first" ]})].
Proof. reflexivity. Qed.
